(** * Chakra UI: style resolution, disclosure state and tooltip timing

    A shallow embedding of the parts of the component library that carry
    logic: Avatar's [getInitials], the Input and Button style resolvers,
    the [useDisclosure] hook and the timers of [useTooltip].

    JavaScript objects used as tables are finite maps from property names
    to values; hooks are state records with one field per React cell;
    timers are entries of an explicit queue ordered by deadline. *)

From Stdlib Require Import QArith ZArith Ascii DecimalString Sorted.
From stdpp Require Import gmap strings list fin_maps.

Close Scope Q_scope.
Local Open Scope string_scope.

#[local] Set Warnings "-register-all".

(** ** JavaScript values *)

(** The values that style tables and themes hold.  Objects answer for their
    own keys only and primitives carry no properties: the tables of this
    library are plain data. *)
Inductive JSVal : Type :=
| VUndef
| VNull
| VBool (b : bool)
| VNum (q : Q)
| VStr (s : string)
| VObj (o : gmap string JSVal).

Abbreviation Obj := (gmap string JSVal).

Arguments VNum q%_Q.
Coercion VStr : string >-> JSVal.
#[warnings="-uniform-inheritance"]
Coercion VObj : gmap >-> JSVal.

(** [{...o, ...v}]: the own keys of [v] are copied over [o]; spreading
    [undefined], [null], [false] or any other primitive copies nothing. *)
Definition spread (o : Obj) (v : JSVal) : Obj :=
  match v with
  | VObj src => src ∪ o
  | _ => o
  end.

(** The members of an object literal, in the order written. *)
Inductive Member : Type :=
| Field (k : string) (v : JSVal)
| Spread (v : JSVal).

(** An object literal [{k1: v1, ...v, k2: v2}]: members take effect from
    left to right, so a later member overrides an earlier one. *)
Definition object (members : list Member) : Obj :=
  foldl (fun o m =>
           match m with
           | Field k v => <[k := v]> o
           | Spread v => spread o v
           end) ∅ members.

(** [v[k]] for a value that is not [undefined] or [null]. *)
Definition prop (v : JSVal) (k : string) : JSVal :=
  match v with
  | VObj o => default VUndef (o !! k)
  | _ => VUndef
  end.

(** ToBoolean. *)
Definition truthy (v : JSVal) : bool :=
  match v with
  | VUndef | VNull => false
  | VBool b => b
  | VNum q => negb (Qeq_bool q 0)
  | VStr s => negb (s =? "")
  | VObj _ => true
  end.

Definition Z_to_string (z : Z) : string :=
  NilZero.string_of_int (Z.to_int z).

Fixpoint fraction_digits (fuel : nat) (r d : Z) : string :=
  match fuel with
  | O => ""
  | S fuel' =>
      if (r =? 0)%Z then ""
      else Z_to_string (10 * r / d) +:+ fraction_digits fuel' (10 * r mod d) d
  end.

(** Number to string, exact for integers and for the short decimals that
    occur in the tables. *)
Definition Number_toString (q : Q) : string :=
  let n := Z.abs (Qnum q) in
  let d := Z.pos (Qden q) in
  (if (Qnum q <? 0)%Z then "-" else "") +:+
  Z_to_string (n / d) +:+
  (if (n mod d =? 0)%Z then "" else "." +:+ fraction_digits 17 (n mod d) d).

(** ToString, as a template literal applies it to an interpolated value. *)
Definition ToString (v : JSVal) : string :=
  match v with
  | VUndef => "undefined"
  | VNull => "null"
  | VBool true => "true"
  | VBool false => "false"
  | VNum q => Number_toString q
  | VStr s => s
  | VObj _ => "[object Object]"
  end.

(** ** Strings *)

(** A string is the sequence of its code units, one character each. *)

(** [s.split(sep)] for a one-character separator: the pieces between the
    separators, of which there is always at least one. *)
Fixpoint split (sep : ascii) (s : string) : list string :=
  match s with
  | EmptyString => [EmptyString]
  | String c s' =>
      if Ascii.eqb c sep then EmptyString :: split sep s'
      else match split sep s' with
           | w :: ws => String c w :: ws
           | [] => [String c EmptyString]
           end
  end.

(** [s.charAt(i)]: the one-character string at index [i], or the empty
    string when [i] is out of range. *)
Definition charAt (s : string) (i : nat) : string :=
  match String.get i s with
  | Some c => String c EmptyString
  | None => EmptyString
  end.

(** ** Completions and the console *)

Inductive JSError : Type :=
| TypeError (msg : string).

Inductive Completion (A : Type) : Type :=
| Normal (a : A)
| Throw (e : JSError).
Arguments Normal {A} a.
Arguments Throw {A} e.

Inductive ConsoleCall : Type :=
| ConsoleWarn (msg : string).

(** A run of a piece of code: how it completed and what it wrote to the
    console on the way. *)
Definition Run (A : Type) : Type := Completion A * list ConsoleCall.

Definition throw {A} (e : JSError) : Run A := (Throw e, []).

Definition console_warn (msg : string) : Run unit :=
  (Normal tt, [ConsoleWarn msg]).

#[global] Instance Run_ret : MRet Run := fun A a => (Normal a, []).

#[global] Instance Run_bind : MBind Run := fun A B k m =>
  match m with
  | (Normal a, out) => let '(r, out') := k a in (r, (out ++ out')%list)
  | (Throw e, out) => (Throw e, out)
  end.

Definition completion {A} (r : Run A) : Completion A := r.1.
Definition console {A} (r : Run A) : list ConsoleCall := r.2.

(** ** Avatar *)

Module Avatar.

(** A destructured array element or an optional string: [None] is
    [undefined]. *)
Definition truthy_string (o : option string) : bool :=
  match o with
  | Some s => negb (s =? "")
  | None => false
  end.

(** [o.charAt(i)]; calling a method on [undefined] throws. *)
Definition call_charAt (o : option string) (i : nat) : Run string :=
  match o with
  | Some s => mret (charAt s i)
  | None => throw (TypeError "Cannot read properties of undefined")
  end.

Definition getInitials (name : string) : Run string :=
  let parts := split " " name in
  let firstName := parts !! 0 in
  let lastName := parts !! 1 in
  if truthy_string firstName && truthy_string lastName then
    f ← call_charAt firstName 0;
    l ← call_charAt lastName 0;
    mret (f +:+ l)
  else
    call_charAt firstName 0.

(** The text before the first space. *)
Fixpoint first_word (s : string) : string :=
  match s with
  | EmptyString => EmptyString
  | String c s' =>
      if Ascii.eqb c " " then EmptyString else String c (first_word s')
  end.

(** The text after the first space, when there is a space. *)
Fixpoint after_space (s : string) : option string :=
  match s with
  | EmptyString => None
  | String c s' => if Ascii.eqb c " " then Some s' else after_space s'
  end.

(** The second space-separated word, when there is one. *)
Definition second_word (s : string) : option string :=
  first_word <$> after_space s.

End Avatar.

(** ** Theme lookup *)

(** Light or dark display preference. *)
Inductive ColorMode : Type := light | dark.

Definition mode_key (m : ColorMode) : string :=
  match m with
  | light => "light"
  | dark => "dark"
  end.

(** [a && b] on values. *)
Definition js_and (a b : JSVal) : JSVal := if truthy a then b else a.

Definition of_option_bool (o : option bool) : JSVal :=
  match o with
  | Some b => VBool b
  | None => VUndef
  end.

(** One turn of the loop in [get]: [obj = obj ? obj[k] : undefined]. *)
Definition walk_step (obj : JSVal) (k : string) : JSVal :=
  if truthy obj then prop obj k else VUndef.

(** styled-system's [get(obj, key, def)]: the key is split at its dots, the
    object is walked one segment at a time (a falsy intermediate value ends
    the walk with [undefined]), and [def] stands in for an [undefined]
    result. *)
Definition get (obj : JSVal) (key : string) (def : JSVal) : JSVal :=
  let keys := if truthy (VStr key) then split "." key else [key] in
  let obj := foldl walk_step obj keys in
  match obj with
  | VUndef => def
  | _ => obj
  end.

(** [resolves v path r]: following [path] through nested tables from [v]
    ends at the defined value [r]. *)
Inductive resolves : JSVal -> list string -> JSVal -> Prop :=
| resolves_here v :
    v ≠ VUndef -> resolves v [] v
| resolves_step (o : Obj) k v path r :
    o !! k = Some v -> resolves v path r -> resolves (VObj o) (k :: path) r.

(** A dotted token path is present in a table when it resolves there. *)
Definition present (table : JSVal) (path : string) : Prop :=
  exists r, resolves table (split "." path) r.

(** A property key made from an optional string: [undefined] is read as the
    key ["undefined"]. *)
Definition key_of (o : option string) : string := default "undefined" o.

(** The own property [k] of a fragment; a value that is not an object has
    none. *)
Definition own (v : JSVal) (k : string) : option JSVal :=
  match v with
  | VObj o => o !! k
  | _ => None
  end.

(** The first answer in a list of lookups. *)
Fixpoint first_of {A} (answers : list (option A)) : option A :=
  match answers with
  | [] => None
  | Some a :: _ => Some a
  | None :: rest => first_of rest
  end.

(** ** Input: [Input/styles.ts] *)

Module Input.

(** [StyleProps], with the fields that [VariantProps] and [InputStyleProps]
    add to it; optional props are [None] when left unset. *)
Record StyleProps : Type := {
  theme : Obj;
  colorMode : ColorMode;
  focusBorderColor : string;
  errorBorderColor : string;
  variant : option string;
  isFullWidth : option bool;
  size : option string;
}.

(** [theme.colors] *)
Definition theme_colors (p : StyleProps) : JSVal := prop (theme p) "colors".

Definition readOnly : Obj :=
  object [
    Field "_readOnly" (object [
      Field "bg" "transparent";
      Field "boxShadow" "none !important";
      Field "userSelect" "all" ])
  ].

Definition outlinedStyle (p : StyleProps) : Obj :=
  let bg : Obj := object [Field "light" "white"; Field "dark" "whiteAlpha.100"] in
  let borderColor : Obj :=
    object [Field "light" "inherit"; Field "dark" "whiteAlpha.50"] in
  let hoverColor : Obj :=
    object [Field "light" "gray.300"; Field "dark" "whiteAlpha.200"] in
  let _focusBorderColor :=
    get (theme_colors p) (focusBorderColor p) (focusBorderColor p) in
  let _errorBorderColor :=
    get (theme_colors p) (errorBorderColor p) (errorBorderColor p) in
  object [
    Spread readOnly;
    Field "border" "1px";
    Field "borderColor" (prop borderColor (mode_key (colorMode p)));
    Field "bg" (prop bg (mode_key (colorMode p)));
    Field "_hover" (object [
      Field "borderColor" (prop hoverColor (mode_key (colorMode p))) ]);
    Field "_disabled" (object [
      Field "opacity" "0.4";
      Field "cursor" "not-allowed" ]);
    Field "_focus" (object [
      Field "borderColor" _focusBorderColor;
      Field "boxShadow" ("0 0 0 1px " +:+ ToString _focusBorderColor) ]);
    Field "_invalid" (object [
      Field "borderColor" _errorBorderColor;
      Field "boxShadow" ("0 0 0 1px " +:+ ToString _errorBorderColor) ])
  ].

Definition filledStyle (p : StyleProps) : Obj :=
  let bg : Obj := object [Field "light" "gray.100"; Field "dark" "whiteAlpha.50"] in
  let hoverColor : Obj :=
    object [Field "light" "gray.200"; Field "dark" "whiteAlpha.100"] in
  let _focusBorderColor :=
    get (theme_colors p) (focusBorderColor p) (focusBorderColor p) in
  let _errorBorderColor :=
    get (theme_colors p) (errorBorderColor p) (errorBorderColor p) in
  object [
    Spread readOnly;
    Field "border" "2px";
    Field "borderColor" "transparent";
    Field "bg" (prop bg (mode_key (colorMode p)));
    Field "_hover" (object [
      Field "bg" (prop hoverColor (mode_key (colorMode p))) ]);
    Field "_disabled" (object [
      Field "opacity" "0.4";
      Field "cursor" "not-allowed" ]);
    Field "_focus" (object [
      Field "bg" "transparent";
      Field "borderColor" _focusBorderColor ]);
    Field "_invalid" (object [
      Field "borderColor" _errorBorderColor ])
  ].

Definition flushedStyle (p : StyleProps) : Obj :=
  let _focusBorderColor :=
    get (theme_colors p) (focusBorderColor p) (focusBorderColor p) in
  let _errorBorderColor :=
    get (theme_colors p) (errorBorderColor p) (errorBorderColor p) in
  object [
    Spread readOnly;
    Field "borderBottom" "2px";
    Field "borderColor" "inherit";
    Field "rounded" (VNum 0);
    Field "px" VUndef;
    Field "bg" "transparent";
    Field "_focus" (object [
      Field "borderColor" _focusBorderColor ]);
    Field "_invalid" (object [
      Field "borderColor" _errorBorderColor ])
  ].

Definition unstyledStyle : Obj :=
  object [
    Field "bg" "transparent";
    Field "px" VUndef;
    Field "height" VUndef
  ].

(** The variant names the switch of [variantProps] has a case for. *)
Definition variants : list string :=
  ["flushed"; "unstyled"; "filled"; "outline"].

Definition variantProps (p : StyleProps) : Run JSVal :=
  let variant := variant p in
  if decide (variant = Some "flushed") then mret (VObj (flushedStyle p))
  else if decide (variant = Some "unstyled") then mret (VObj unstyledStyle)
  else if decide (variant = Some "filled") then mret (VObj (filledStyle p))
  else if decide (variant = Some "outline") then mret (VObj (outlinedStyle p))
  else mret (VObj (object [])).

Definition baseProps : Obj :=
  object [
    Field "display" "flex";
    Field "alignItems" "center";
    Field "position" "relative";
    Field "transition" "all 0.2s";
    Field "outline" "none"
  ].

Definition inputSizes : Obj :=
  object [
    Field "lg" (object [
      Field "fontSize" "lg";
      Field "px" (VNum 4);
      Field "height" "12";
      Field "lineHeight" "3rem";
      Field "rounded" "md" ]);
    Field "md" (object [
      Field "fontSize" "md";
      Field "px" (VNum 4);
      Field "height" "10";
      Field "lineHeight" "2.5rem";
      Field "rounded" "md" ]);
    Field "sm" (object [
      Field "fontSize" "sm";
      Field "px" (VNum 3);
      Field "height" "8";
      Field "lineHeight" "2rem";
      Field "rounded" "sm" ])
  ].

Definition sizeProps (p : StyleProps) : JSVal :=
  prop inputSizes (key_of (size p)).

(** The props a caller passes; theme and colour mode come from the
    providers. *)
Record Props : Type := {
  props_variant : option string;
  props_size : option string;
  props_isFullWidth : option bool;
  props_focusBorderColor : string;
  props_errorBorderColor : string;
}.

(** [{ ...props, theme, colorMode }] *)
Definition with_context (theme : Obj) (colorMode : ColorMode) (props : Props)
    : StyleProps :=
  {| theme := theme;
     colorMode := colorMode;
     focusBorderColor := props_focusBorderColor props;
     errorBorderColor := props_errorBorderColor props;
     variant := props_variant props;
     isFullWidth := props_isFullWidth props;
     size := props_size props |}.

(** [props.isFullWidth ? "100%" : undefined] *)
Definition width_of (props : Props) : JSVal :=
  if truthy (of_option_bool (props_isFullWidth props)) then VStr "100%"
  else VUndef.

Definition useInputStyle (useTheme : Obj) (useColorMode : ColorMode)
    (props : Props) : Run Obj :=
  let theme := useTheme in
  let colorMode := useColorMode in
  let _props := with_context theme colorMode props in
  size_fragment ← mret (sizeProps _props);
  variant_fragment ← variantProps _props;
  mret (object [
    Field "width" (width_of props);
    Spread baseProps;
    Spread size_fragment;
    Spread variant_fragment
  ]).

(** The sizes [inputSizes] has an entry for. *)
Definition sizes : list string := ["lg"; "md"; "sm"].

End Input.

(** ** Button *)

Module Button.

(** The props that reach the styled element. *)
Record StyledProps : Type := {
  theme : Obj;
  mode : ColorMode;
  isFullWidth : option bool;
  buttonVariant : string;
  buttonSize : string;
  buttonColor : string;
}.

(** [@styled-system/theme-get]: [themeGet(path)(props)] reads [path] from
    [props.theme], with [null] for a path that does not resolve. *)
Definition themeGet (path : string) (props : StyledProps) : JSVal :=
  get (theme props) path VNull.

(** Emotion's [css(...)]: the fragments are serialised in the order given
    and, for one key, the declaration written last is the one in force. *)
Definition css (fragments : list JSVal) : Obj := foldl spread ∅ fragments.

Definition baseStyle : Obj :=
  css [VObj (object [
    Field "display" "inline-flex";
    Field "alignItems" "center";
    Field "justifyContent" "center";
    Field "transition" "all 250ms";
    Field "userSelect" "none";
    Field "position" "relative";
    Field "whiteSpace" "nowrap";
    Field "verticalAlign" "middle";
    Field "lineHeight" "1.2" ])].

Definition unstyledStyle : Obj :=
  css [VObj (object [
    Field "userSelect" "inherit";
    Field "background" "none";
    Field "border" (VNum 0);
    Field "color" "inherit";
    Field "display" "inline";
    Field "font" "inherit";
    Field "lineHeight" "inherit";
    Field "margin" (VNum 0);
    Field "padding" (VNum 0);
    Field "textAlign" "inherit" ])].

(** The one-character string holding a double quote. *)
Definition dquote : string := String (ascii_of_nat 34) EmptyString.

Definition hoverSelector : string :=
  "&:not([aria-disabled=" +:+ dquote +:+ "true" +:+ dquote +:+ "]):hover".
Definition activeSelector : string :=
  "&:not([aria-disabled=" +:+ dquote +:+ "true" +:+ dquote +:+ "]):active".
Definition disabledSelector : string :=
  "&[aria-disabled=" +:+ dquote +:+ "true" +:+ dquote +:+ "]".
Definition focusSelector : string := "&:focus".

Definition themedSolidColors (props : StyledProps) : Obj :=
  object [
    Field "light" (object [
      Field "color" "inherit";
      Field "backgroundColor" (themeGet "colors.gray.100" props);
      Field hoverSelector (object [
        Field "backgroundColor" (themeGet "colors.gray.200" props) ]);
      Field activeSelector (object [
        Field "backgroundColor" (themeGet "colors.gray.300" props) ]) ]);
    Field "dark" (object [
      Field "color" (themeGet "colors.alpha.900" props);
      Field "backgroundColor" (themeGet "colors.alpha.200" props);
      Field hoverSelector (object [
        Field "backgroundColor" (themeGet "colors.alpha.300" props) ]);
      Field activeSelector (object [
        Field "backgroundColor" (themeGet "colors.alpha.400" props) ]) ])
  ].

Definition solidColorStyle (props : StyledProps) : Obj :=
  css [VObj (object [
    Field "color" "#fff";
    Field "backgroundColor"
      (themeGet ("colors." +:+ buttonColor props +:+ ".500") props);
    Field hoverSelector (object [
      Field "backgroundColor"
        (themeGet ("colors." +:+ buttonColor props +:+ ".600") props) ]);
    Field activeSelector (object [
      Field "backgroundColor"
        (themeGet ("colors." +:+ buttonColor props +:+ ".700") props) ]);
    Spread (js_and (VBool (buttonColor props =? "gray"))
                   (prop (themedSolidColors props) (mode_key (mode props))))
  ])].

Definition themedGhostButton (props : StyledProps) : Obj :=
  object [
    Field "light" (object [
      Field "color" "inherit";
      Field hoverSelector (object [
        Field "backgroundColor" (themeGet "colors.gray.100" props) ]);
      Field activeSelector (object [
        Field "backgroundColor" (themeGet "colors.gray.200" props) ]) ]);
    Field "dark" (object [
      Field "color" (themeGet "colors.alpha.900" props);
      Field hoverSelector (object [
        Field "backgroundColor" (themeGet "colors.alpha.200" props) ]);
      Field activeSelector (object [
        Field "backgroundColor" (themeGet "colors.alpha.300" props) ]) ])
  ].

Definition ghostColorStyle (props : StyledProps) : Obj :=
  css [VObj (object [
    Field "color"
      (themeGet ("colors." +:+ buttonColor props +:+ ".500") props);
    Field "backgroundColor" "transparent";
    Field hoverSelector (object [
      Field "backgroundColor"
        (themeGet ("colors." +:+ buttonColor props +:+ ".50") props) ]);
    Field activeSelector (object [
      Field "backgroundColor"
        (themeGet ("colors." +:+ buttonColor props +:+ ".100") props) ]);
    Spread (js_and (VBool (buttonColor props =? "gray"))
                   (prop (themedGhostButton props) (mode_key (mode props))))
  ])].

Definition outlineColorStyle (props : StyledProps) : Obj :=
  css [VObj (ghostColorStyle props); VObj (object [
    Field "borderWidth" (VNum 1);
    Field "borderColor"
      (themeGet ("colors." +:+ buttonColor props +:+ ".200") props);
    Spread (js_and (VBool (buttonColor props =? "gray"))
      (object [
        Field "borderColor"
          (match mode props with
           | dark => themeGet "colors.alpha.400" props
           | light =>
               themeGet ("colors." +:+ buttonColor props +:+ ".200") props
           end) ]))
  ])].

Definition linkStyle (props : StyledProps) : Obj :=
  css [VObj (object [
    Field "padding" (VNum 0);
    Field "height" "auto";
    Field "lineHeight" "normal";
    Field "color"
      (themeGet ("colors." +:+ buttonColor props +:+ ".600") props);
    Field hoverSelector (object [
      Field "textDecoration" "underline" ]);
    Field activeSelector (object [
      Field "color"
        (themeGet ("colors." +:+ buttonColor props +:+ ".700") props) ])
  ])].

(** The variant names the switch of [variantStyle] has a case for. *)
Definition variants : list string :=
  ["solid"; "outline"; "ghost"; "link"; "unstyled"].

Definition variantStyle (props : StyledProps) : Run JSVal :=
  let buttonVariant := buttonVariant props in
  if decide (buttonVariant = "solid") then
    mret (VObj (solidColorStyle props))
  else if decide (buttonVariant = "outline") then
    mret (VObj (outlineColorStyle props))
  else if decide (buttonVariant = "ghost") then
    mret (VObj (ghostColorStyle props))
  else if decide (buttonVariant = "link") then
    mret (VObj (linkStyle props))
  else if decide (buttonVariant = "unstyled") then
    mret (VObj unstyledStyle)
  else
    console_warn "passed variant prop is invalid ";;
    mret (VObj (object [])).

Definition sizeStyle (props : StyledProps) : Obj :=
  css [VObj (object [
    Spread (themeGet ("sizes.button." +:+ buttonSize props) props);
    Spread (js_and (of_option_bool (isFullWidth props))
                   (object [Field "width" "100%"]))
  ])].

Definition disabledStyle : Obj :=
  css [VObj (object [
    Field disabledSelector (object [
      Field "opacity" (VNum 0.5);
      Field "cursor" "not-allowed";
      Field "boxShadow" "none" ])
  ])].

Definition focusStyle (props : StyledProps) : Obj :=
  css [VObj (object [
    Field focusSelector (object [
      Field "boxShadow" (themeGet "shadows.focusring" props) ])
  ])].

(** The styled element's template: each interpolation is evaluated with the
    props, in the order written, and the results are composed. *)
Definition StyledButton (props : StyledProps) : Run Obj :=
  base ← mret (VObj baseStyle);
  disabled ← mret (VObj disabledStyle);
  focus ← mret (VObj (focusStyle props));
  size ← mret (VObj (sizeStyle props));
  variant ← variantStyle props;
  mret (css [base; disabled; focus; size; variant]).

(** The props a caller gives to [Button]; [None] is a prop left unset. *)
Record Props : Type := {
  variant : option string;
  size : option string;
  color : option string;
  fullWidth : option bool;
}.

(** [Button.defaultProps], for the style props. *)
Record DefaultProps : Type := {
  default_color : string;
  default_size : string;
  default_variant : string;
}.

Definition defaultProps : DefaultProps := {|
  default_color := "gray";
  default_size := "md";
  default_variant := "solid";
|}.

(** [Button]: the props handed to [StyledButton]; React fills a prop left
    unset from [defaultProps]. *)
Definition Button (useTheme : Obj) (useUIMode : ColorMode) (props : Props)
    : StyledProps :=
  let variant := default (default_variant defaultProps) (variant props) in
  let size := default (default_size defaultProps) (size props) in
  let color := default (default_color defaultProps) (color props) in
  let mode := useUIMode in
  {| theme := useTheme;
     mode := mode;
     isFullWidth := fullWidth props;
     buttonVariant := variant;
     buttonSize := size;
     buttonColor := color |}.

End Button.

(** ** NumberInput: the size table of its theme *)

Module NumberInput.

Definition getSizeStyle (size : string) : Obj :=
  object [
    Field "fontSize" (if decide (size = "sm") then "11px" else "15px");
    Field "_first" (object [
      Field "roundedTopRight"
        (if decide (size = "sm") then VNum 1 else VNum 3) ]);
    Field "_last" (object [
      Field "roundedBottomRight"
        (if decide (size = "sm") then VNum 1 else VNum 3);
      Field "mt" "-1px";
      Field "borderTopWidth" (VNum 1) ])
  ].

Definition variantSize : Obj :=
  object [
    Field "__default" "md";
    Field "sm" (object [Field "Stepper" (getSizeStyle "sm")]);
    Field "md" (object [Field "Stepper" (getSizeStyle "md")]);
    Field "lg" (object [Field "Stepper" (getSizeStyle "lg")])
  ].

End NumberInput.

(** ** Disclosure: [useDisclosure.ts] *)

Module Disclosure.

(** A callback of the host application, known by its name. *)
Definition Callback : Type := string.

Record DisclosureHookProps : Type := {
  isOpenProp : option bool;
  defaultIsOpen : option bool;
  onCloseProp : option Callback;
  onOpenProp : option Callback;
}.

(** One mounted hook: the props of its latest render, the cells React keeps
    for it between renders, and the host callbacks invoked so far (oldest
    first). *)
Record Hook : Type := {
  props : DisclosureHookProps;
  isOpenState : bool;
  isControlledRef : bool;
  previousRef : option bool;
  called : list Callback;
}.

Definition set_props (p : DisclosureHookProps) (h : Hook) : Hook :=
  {| props := p; isOpenState := isOpenState h;
     isControlledRef := isControlledRef h; previousRef := previousRef h;
     called := called h |}.

Definition set_isOpenState (b : bool) (h : Hook) : Hook :=
  {| props := props h; isOpenState := b;
     isControlledRef := isControlledRef h; previousRef := previousRef h;
     called := called h |}.

Definition set_previousRef (v : option bool) (h : Hook) : Hook :=
  {| props := props h; isOpenState := isOpenState h;
     isControlledRef := isControlledRef h; previousRef := v;
     called := called h |}.

(** Calling a host callback. *)
Definition invoke (cb : Callback) (h : Hook) : Hook :=
  {| props := props h; isOpenState := isOpenState h;
     isControlledRef := isControlledRef h; previousRef := previousRef h;
     called := (called h ++ [cb])%list |}.

(** [prop !== undefined] *)
Definition supplied {A} (prop : option A) : bool :=
  match prop with
  | Some _ => true
  | None => false
  end.

(** [Boolean(x)] for a flag that may be [undefined]. *)
Definition Boolean (x : option bool) : bool := default false x.

(** Modelled from the spec: [useControllableProp] of [./useControllable],
    which the sources do not include.  Whether the hook is controlled is
    settled once, at construction, by whether an external value was
    supplied, and is kept in a cell; a controlled hook shows the external
    value and ignores the internal state, an uncontrolled one shows the
    internal state. *)
Definition useControllableProp (h : Hook) (prop : option bool) (state : bool)
    : bool * option bool :=
  let isControlled := isControlledRef h in
  (isControlled, if isControlled then prop else Some state).

(** Modelled from the spec: [usePrevious] of [./usePrevious], which the
    sources do not include.  Its cell holds the value shown immediately
    before the latest transition, [undefined] before any transition. *)
Definition usePrevious (h : Hook) : option bool := previousRef h.

Record DisclosureHookReturn : Type := {
  isOpen : bool;
  prevIsOpen : bool;
  isControlled : bool;
}.

(** The value [useControllableProp] hands to the render. *)
Definition shown (h : Hook) : option bool :=
  (useControllableProp h (isOpenProp (props h)) (isOpenState h)).2.

(** A render of the hook: what it returns, apart from the three callbacks,
    which follow as functions on the hook. *)
Definition useDisclosure (h : Hook) : DisclosureHookReturn :=
  let '(isControlled, isOpen) :=
    useControllableProp h (isOpenProp (props h)) (isOpenState h) in
  let prevIsOpen := usePrevious h in
  {| isOpen := Boolean isOpen;
     prevIsOpen := Boolean prevIsOpen;
     isControlled := isControlled |}.

(** The first render: [useState(props.defaultIsOpen || false)], and the
    cells of the two helper hooks. *)
Definition mount (p : DisclosureHookProps) : Hook :=
  {| props := p;
     isOpenState := Boolean (defaultIsOpen p) || false;
     isControlledRef := supplied (isOpenProp p);
     previousRef := None;
     called := [] |}.

(** A re-render after a write: when the shown value has changed, the cell of
    [usePrevious] takes the value shown before. *)
Definition commit (before after : Hook) : Hook :=
  if decide (shown before = shown after) then after
  else set_previousRef (shown before) after.

Definition setIsOpen (b : bool) (h : Hook) : Hook :=
  commit h (set_isOpenState b h).

Definition onClose (h : Hook) : Hook :=
  let isControlled := isControlled (useDisclosure h) in
  let h := if negb isControlled then setIsOpen false h else h in
  match onCloseProp (props h) with
  | Some onCloseProp => invoke onCloseProp h
  | None => h
  end.

Definition onOpen (h : Hook) : Hook :=
  let isControlled := isControlled (useDisclosure h) in
  let h := if negb isControlled then setIsOpen true h else h in
  match onOpenProp (props h) with
  | Some onOpenProp => invoke onOpenProp h
  | None => h
  end.

Definition onToggle (h : Hook) : Hook :=
  let isOpen := shown h in
  let action := if Boolean isOpen then onClose else onOpen in
  action h.

(** The host renders the component again with new props. *)
Definition rerender (p : DisclosureHookProps) (h : Hook) : Hook :=
  commit h (set_props p h).

(** What can happen to a mounted hook. *)
Inductive Action : Type :=
| CallOpen
| CallClose
| CallToggle
| Rerender (p : DisclosureHookProps).

Definition step (h : Hook) (a : Action) : Hook :=
  match a with
  | CallOpen => onOpen h
  | CallClose => onClose h
  | CallToggle => onToggle h
  | Rerender p => rerender p h
  end.

Definition run (actions : list Action) (h : Hook) : Hook :=
  foldl step h actions.

(** [createDisclosure({})] *)
Definition empty_config : DisclosureHookProps :=
  {| isOpenProp := None; defaultIsOpen := None;
     onCloseProp := None; onOpenProp := None |}.

End Disclosure.

(** ** Tooltip: [useTooltip] *)

Module Tooltip.

Record UseTooltipProps : Type := {
  openDelay : option nat;
  closeDelay : option nat;
  closeOnClick : option bool;
  closeOnMouseDown : option bool;
  onOpenProp : option Disclosure.Callback;
  onCloseProp : option Disclosure.Callback;
  isOpenProp : option bool;
  defaultIsOpen : option bool;
  isDisabled : option bool;
}.

(** What a pending timeout will call. *)
Inductive Handler : Type :=
| call_onOpen
| call_onClose.

#[global] Instance Handler_eq_dec : EqDecision Handler.
Proof. solve_decision. Defined.

Record Timer : Type := {
  handle : nat;
  due : nat;
  handler : Handler;
}.

(** A mounted tooltip: its props, its disclosure, the two timer cells, and
    the window's clock (in milliseconds) and timeouts.  [fired] lists the
    handlers that timeouts have run, oldest first. *)
Record State : Type := {
  props : UseTooltipProps;
  disclosure : Disclosure.Hook;
  enterTimeout : option nat;
  exitTimeout : option nat;
  clock : nat;
  nextHandle : nat;
  timers : list Timer;
  fired : list Handler;
}.

Definition set_disclosure (d : Disclosure.Hook) (s : State) : State :=
  {| props := props s; disclosure := d; enterTimeout := enterTimeout s;
     exitTimeout := exitTimeout s; clock := clock s;
     nextHandle := nextHandle s; timers := timers s; fired := fired s |}.

Definition set_enterTimeout (v : option nat) (s : State) : State :=
  {| props := props s; disclosure := disclosure s; enterTimeout := v;
     exitTimeout := exitTimeout s; clock := clock s;
     nextHandle := nextHandle s; timers := timers s; fired := fired s |}.

Definition set_exitTimeout (v : option nat) (s : State) : State :=
  {| props := props s; disclosure := disclosure s;
     enterTimeout := enterTimeout s; exitTimeout := v; clock := clock s;
     nextHandle := nextHandle s; timers := timers s; fired := fired s |}.

Definition set_timers (ts : list Timer) (s : State) : State :=
  {| props := props s; disclosure := disclosure s;
     enterTimeout := enterTimeout s; exitTimeout := exitTimeout s;
     clock := clock s; nextHandle := nextHandle s; timers := ts;
     fired := fired s |}.

(** The destructuring defaults of [useTooltip]. *)
Definition open_delay (s : State) : nat := default 0 (openDelay (props s)).
Definition close_delay (s : State) : nat := default 0 (closeDelay (props s)).
Definition close_on_click (s : State) : bool :=
  default true (closeOnClick (props s)).

(** The timeout queue is kept by deadline; of two timeouts due together the
    one set first comes first. *)
Fixpoint enqueue (t : Timer) (ts : list Timer) : list Timer :=
  match ts with
  | [] => [t]
  | u :: ts' =>
      if (due u <=? due t)%nat then u :: enqueue t ts' else t :: u :: ts'
  end.

(** [window.setTimeout(handler, delay)]: a fresh handle, greater than zero. *)
Definition setTimeout (h : Handler) (delay : nat) (s : State) : nat * State :=
  let id := nextHandle s in
  (id,
   {| props := props s; disclosure := disclosure s;
      enterTimeout := enterTimeout s; exitTimeout := exitTimeout s;
      clock := clock s; nextHandle := S id;
      timers := enqueue {| handle := id; due := clock s + delay;
                           handler := h |} (timers s);
      fired := fired s |}).

(** [clearTimeout(id)]; clearing [undefined] or a handle that is no longer
    pending does nothing. *)
Definition clearTimeout (id : option nat) (s : State) : State :=
  match id with
  | Some i => set_timers (filter (fun t => handle t ≠ i) (timers s)) s
  | None => s
  end.

(** Truthiness of a timer cell: [undefined] and [0] are falsy. *)
Definition truthy_handle (id : option nat) : bool :=
  match id with
  | Some (S _) => true
  | _ => false
  end.

(** The disclosure [useTooltip] creates. *)
Definition disclosure_props (p : UseTooltipProps)
    : Disclosure.DisclosureHookProps :=
  {| Disclosure.isOpenProp := isOpenProp p;
     Disclosure.defaultIsOpen := defaultIsOpen p;
     Disclosure.onOpenProp := onOpenProp p;
     Disclosure.onCloseProp := onCloseProp p |}.

Definition mount (p : UseTooltipProps) : State :=
  {| props := p;
     disclosure := Disclosure.mount (disclosure_props p);
     enterTimeout := None;
     exitTimeout := None;
     clock := 0;
     nextHandle := 1;
     timers := [];
     fired := [] |}.

Definition isOpen (s : State) : bool :=
  Disclosure.isOpen (Disclosure.useDisclosure (disclosure s)).

Definition openWithDelay (s : State) : State :=
  if negb (Disclosure.Boolean (isDisabled (props s))) then
    let '(id, s) := setTimeout call_onOpen (open_delay s) s in
    set_enterTimeout (Some id) s
  else s.

Definition closeWithDelay (s : State) : State :=
  let s :=
    if truthy_handle (enterTimeout s) then clearTimeout (enterTimeout s) s
    else s in
  let '(id, s) := setTimeout call_onClose (close_delay s) s in
  set_exitTimeout (Some id) s.

Definition onClick (s : State) : State :=
  if close_on_click s then closeWithDelay s else s.

Definition onMouseDown (s : State) : State :=
  if Disclosure.Boolean (closeOnMouseDown (props s)) then closeWithDelay s
  else s.

Definition onKeyDown (key : string) (s : State) : State :=
  if isOpen s && (key =? "Escape") then closeWithDelay s else s.

(** The cleanup of the mount effect. *)
Definition unmount (s : State) : State :=
  clearTimeout (exitTimeout s) (clearTimeout (enterTimeout s) s).

(** A timeout comes due: its handler runs. *)
Definition fire (s : State) (t : Timer) : State :=
  let d :=
    match handler t with
    | call_onOpen => Disclosure.onOpen (disclosure s)
    | call_onClose => Disclosure.onClose (disclosure s)
    end in
  {| props := props s; disclosure := d; enterTimeout := enterTimeout s;
     exitTimeout := exitTimeout s; clock := clock s;
     nextHandle := nextHandle s; timers := timers s;
     fired := (fired s ++ [handler t])%list |}.

(** [ms] milliseconds pass: the timeouts due by then leave the queue and
    run, in queue order. *)
Definition elapse (ms : nat) (s : State) : State :=
  let now := clock s + ms in
  let ready := filter (fun t => (due t ≤ now)%nat) (timers s) in
  let waiting := filter (fun t => ¬ (due t ≤ now)%nat) (timers s) in
  foldl fire
    {| props := props s; disclosure := disclosure s;
       enterTimeout := enterTimeout s; exitTimeout := exitTimeout s;
       clock := now; nextHandle := nextHandle s; timers := waiting;
       fired := fired s |}
    ready.

(** What the host delivers to a mounted tooltip: the events wired up by
    [getTriggerProps] and the two listeners, teardown, and the passing of
    time. *)
Inductive Event : Type :=
| MouseEnter
| Focus
| Click
| MouseDown
| KeyDown (key : string)
| MouseLeave
| Blur
| Unmount
| Elapse (ms : nat).

Definition step (s : State) (e : Event) : State :=
  match e with
  | MouseEnter => openWithDelay s
  | Focus => openWithDelay s
  | Click => onClick s
  | MouseDown => onMouseDown s
  | KeyDown key => onKeyDown key s
  | MouseLeave => closeWithDelay s
  | Blur => closeWithDelay s
  | Unmount => unmount s
  | Elapse ms => elapse ms s
  end.

Definition run (events : list Event) (s : State) : State :=
  foldl step s events.

(** The events that ask for the tooltip to open. *)
Definition open_trigger (e : Event) : Prop := e = MouseEnter ∨ e = Focus.

(** The events that always ask for it to close. *)
Definition close_trigger (e : Event) : Prop := e = MouseLeave ∨ e = Blur.

#[global] Instance Event_eq_dec : EqDecision Event.
Proof. solve_decision. Defined.

#[global] Instance open_trigger_dec e : Decision (open_trigger e).
Proof. unfold open_trigger. apply _. Defined.

(** How many times a timeout has run the disclosure's [onOpen]. *)
Definition opens (s : State) : nat :=
  length (filter (fun h => h = call_onOpen) (fired s)).

(** How many times a timeout has run the disclosure's [onClose]. *)
Definition closes (s : State) : nat :=
  length (filter (fun h => h = call_onClose) (fired s)).

(** No timeout is waiting to open the tooltip. *)
Definition no_pending_open (s : State) : Prop :=
  Forall (fun t => handler t ≠ call_onOpen) (timers s).

(** The handles of the timeouts waiting to close the tooltip. *)
Definition pending_closes (s : State) : list nat :=
  handle <$> filter (fun t => handler t = call_onClose) (timers s).

(** Props with only the two delays set. *)
Definition delays (open close : nat) : UseTooltipProps :=
  {| openDelay := Some open; closeDelay := Some close;
     closeOnClick := None; closeOnMouseDown := None;
     onOpenProp := None; onCloseProp := None;
     isOpenProp := None; defaultIsOpen := None; isDisabled := None |}.

End Tooltip.

(** ** Sample inputs *)

Module Samples.

Definition colors : Obj :=
  object [
    Field "white" "#ffffff";
    Field "gray" (object [Field "200" "#E2E8F0"; Field "300" "#CBD5E0"])
  ].

Definition theme : Obj :=
  object [
    Field "colors" colors;
    Field "sizes" (object [
      Field "button" (object [
        Field "md" (object [
          Field "height" "10"; Field "fontSize" "md";
          Field "lineHeight" "1.5" ]) ]) ]);
    Field "shadows" (object [Field "focusring" "0 0 0 3px #90CDF4"])
  ].

(** An Input with the given variant and size. *)
Definition input (variant size : option string) : Input.Props :=
  {| Input.props_variant := variant;
     Input.props_size := size;
     Input.props_isFullWidth := None;
     Input.props_focusBorderColor := "gray.200";
     Input.props_errorBorderColor := "#f00" |}.

Definition input_style (variant size : option string) : Input.StyleProps :=
  Input.with_context theme light (input variant size).

(** A Button with the given variant and size. *)
Definition button (variant size : option string) : Button.StyledProps :=
  Button.Button theme light
    {| Button.variant := variant; Button.size := size;
       Button.color := None; Button.fullWidth := None |}.

(** [createDisclosure({isOpen: true, onOpen, onClose})] *)
Definition controlled_open : Disclosure.DisclosureHookProps :=
  {| Disclosure.isOpenProp := Some true;
     Disclosure.defaultIsOpen := None;
     Disclosure.onCloseProp := Some "onClose";
     Disclosure.onOpenProp := Some "onOpen" |}.

(** A tooltip that starts open, opens at once and closes after 300 ms. *)
Definition open_tooltip : Tooltip.UseTooltipProps :=
  {| Tooltip.openDelay := Some 0; Tooltip.closeDelay := Some 300;
     Tooltip.closeOnClick := None; Tooltip.closeOnMouseDown := None;
     Tooltip.onOpenProp := None; Tooltip.onCloseProp := None;
     Tooltip.isOpenProp := None; Tooltip.defaultIsOpen := Some true;
     Tooltip.isDisabled := None |}.

End Samples.

(** ** Button: what the component renders, and [ButtonGroup] *)

Module ButtonView.

(** The props of [Button] that decide its children; [children] and the two
    icons are known by name. *)
Record Props : Type := {
  isDisabled : option bool;
  isLoading : option bool;
  children : string;
  leftIcon : option string;
  rightIcon : option string;
  loadingText : option string;
  iconSpacing : option JSVal;
}.

(** What [Button] puts inside the styled element. *)
Inductive Node : Type :=
| Icon (name : string) (margin : string) (spacing : JSVal)
| Spinner (position : string) (mr : JSVal)
| Text (text : string)
| Hidden (children : string)
| Children (children : string).

#[global] Instance Node_inhabited : Inhabited Node := populate (Text "").


(** [isDisabled || isLoading] *)
Definition disabled (props : Props) : bool :=
  Disclosure.Boolean (isDisabled props) || Disclosure.Boolean (isLoading props).




(** A child of a group: its props and the [defaultProps] of its type. *)
Record Element : Type := {
  props : Obj;
  defaultProps : option Obj;
}.

(** [React.cloneElement(element, config)]: every key of [config] is
    written over the element's props; a key given as [undefined] takes the
    value from the type's [defaultProps] when the type has them. *)
Definition cloneElement (element : Element) (config : Obj) : Element :=
  let resolved :=
    map_imap (fun k v =>
                Some match v, defaultProps element with
                     | VUndef, Some defaults => default VUndef (defaults !! k)
                     | _, _ => v
                     end) config in
  {| props := resolved ∪ props element;
     defaultProps := defaultProps element |}.

(** The props [ButtonGroup] hands to the child at [idx] of [count]. *)
Definition child_config (size isAttached spacing : JSVal) (count idx : nat)
    : Obj :=
  object [
    Field "size" size;
    Spread (js_and (js_and (VBool (negb (idx + 1 =? count)%nat))
                           (VBool (negb (truthy isAttached))))
                   (object [Field "mr" spacing]))
  ].

(** [spacing = 2] in the parameter list: the default stands in for
    [undefined]. *)
Definition spacing_or_default (spacing : JSVal) : JSVal :=
  match spacing with
  | VUndef => VNum 2
  | _ => spacing
  end.

(** The children [ButtonGroup] renders. *)
Definition ButtonGroup (size isAttached spacing : JSVal)
    (children : list Element) : list Element :=
  let spacing := spacing_or_default spacing in
  imap (fun idx child =>
          cloneElement child
            (child_config size isAttached spacing (length children) idx))
       children.

End ButtonView.

(** ** Avatar: what the component renders *)

Module AvatarView.

Record AvatarProps : Type := {
  src : option string;
  name : option string;
  onError : option Disclosure.Callback;
}.

(** The component's state cell, and the host callbacks invoked so far. *)
Record State : Type := {
  hasLoaded : bool;
  called : list Disclosure.Callback;
}.

(** [useState(true)] *)
Definition mount : State := {| hasLoaded := true; called := [] |}.

(** What [getChildren] can return. *)
Inductive Child : Type :=
| Image (src : string) (alt : option string)
| AvatarName (label : option string) (children : option string)
| DefaultAvatar (label : option string).

(** [AvatarName]: the initials of a name that is there, else nothing. *)
Definition renderAvatarName (name : option string) : Run Child :=
  if Avatar.truthy_string name then
    initials ← Avatar.getInitials (default "" name);
    mret (AvatarName name (Some initials))
  else mret (AvatarName name None).

Definition getChildren (props : AvatarProps) (s : State) : Run Child :=
  let src_ok := Avatar.truthy_string (src props) in
  let name_ok := Avatar.truthy_string (name props) in
  if src_ok && hasLoaded s then
    mret (Image (default "" (src props)) (name props))
  else if src_ok && negb (hasLoaded s) then
    if name_ok then renderAvatarName (name props)
    else mret (DefaultAvatar (name props))
  else if negb src_ok && name_ok then renderAvatarName (name props)
  else mret (DefaultAvatar (name props)).

(** The image fails to load. *)
Definition onLoadError (props : AvatarProps) (s : State) : State :=
  {| hasLoaded := false;
     called := (called s ++ option_list (onError props))%list |}.

End AvatarView.

(** ** Team page: members and contributors *)

Module Team.

(** A GitHub account as the page reads it: the login, and the rest of the
    record. *)
Record Account : Type := {
  login : string;
  profile : Obj;
}.

(** The contributors shown under the team: those whose login is not a
    member's. *)
Definition contributorsWithoutTeam (members contributors : list Account)
    : list Account :=
  let memberLogins := login <$> members in
  filter (fun c => login c ∉ memberLogins) contributors.

Section Sorting.

(** [a.localeCompare(b, "en")]: negative, zero or positive. *)
Variable localeCompare : string -> string -> Z.

Definition sortMembers (a b : Account) : Z :=
  if decide (login a = "segunadebayo") then (-1)%Z
  else if decide (login b = "segunadebayo") then 1%Z
  else localeCompare (login a) (login b).

(** [x] takes its place in front of a list already in order: it passes the
    elements the comparator puts before it. *)
Fixpoint place (x : Account) (sorted : list Account) : list Account :=
  match sorted with
  | [] => [x]
  | y :: rest =>
      if (0 <? sortMembers x y)%Z then y :: place x rest
      else x :: y :: rest
  end.

(** [members.sort(sortMembers)]: a stable sort by the comparator. *)
Definition sort (members : list Account) : list Account :=
  foldr place [] members.

End Sorting.

End Team.

(** ** Search: the items handed to the results list *)

Module Search.

(** A search hit: its URL, its content ([None] is [null]) and the two
    levels of its hierarchy that the page reads. *)
Record Item : Type := {
  url : string;
  content : option string;
  lvl0 : option string;
  lvl1 : option string;
}.

(** lodash's [startsWith("css-")]; a missing string starts with nothing. *)
Definition startsWithCss (text : option string) : bool :=
  match text with
  | Some s => String.prefix "css-" s
  | None => false
  end.

Section Transform.

(** The path and the fragment (with its [#]) that the browser reads from a
    URL assigned to an anchor. *)
Variable pathname : string -> string.
Variable hash : string -> string.

Definition keep (item : Item) : bool :=
  negb (startsWithCss (lvl1 item)) || negb (startsWithCss (content item)).

Definition relative (item : Item) : Item :=
  let hash := if decide (hash (url item) = "#content-wrapper") then ""
              else hash (url item) in
  {| url := pathname (url item) +:+ hash;
     content := match content item with
                | Some c => Some c
                | None => lvl0 item
                end;
     lvl0 := lvl0 item;
     lvl1 := lvl1 item |}.

Definition transformItems (items : list Item) : list Item :=
  relative <$> filter (fun item => keep item = true) items.

End Transform.

End Search.

(** ** Tooltip: the props of the tooltip element, and queue facts *)

Module TooltipView.

Section Getters.

(** [popperCSSVars.transformOrigin.varRef] *)
Variable transformOrigin : JSVal.

(** [getTooltipProps(props, _ref)], for the tooltip with id [tooltipId]
    and the leftover props [htmlProps]. *)
Definition getTooltipProps (htmlProps : Obj) (tooltipId : string)
    (props : Obj) (_ref : JSVal) : Obj :=
  object [
    Field "ref" _ref;
    Spread htmlProps;
    Spread props;
    Field "id" tooltipId;
    Field "role" "tooltip";
    Field "style" (object [
      Spread (prop props "style");
      Field "position" "relative";
      Field "transformOrigin" transformOrigin ])
  ].

End Getters.

(** The timeouts wait in the order of their deadlines. *)
Definition queue_sorted (s : Tooltip.State) : Prop :=
  StronglySorted (fun a b => (Tooltip.due a ≤ Tooltip.due b)%nat)
                 (Tooltip.timers s).

(** Every timeout that waits is the one a timer cell names. *)
Definition tracked (s : Tooltip.State) : Prop :=
  Forall (fun t => Tooltip.enterTimeout s = Some (Tooltip.handle t) \/
                   Tooltip.exitTimeout s = Some (Tooltip.handle t))
         (Tooltip.timers s).

(** The events that make the tooltip ask for a close, in state [s]. *)
Definition asks_to_close (s : Tooltip.State) (e : Tooltip.Event) : Prop :=
  match e with
  | Tooltip.MouseLeave | Tooltip.Blur => True
  | Tooltip.Click => Tooltip.close_on_click s = true
  | Tooltip.MouseDown =>
      Disclosure.Boolean (Tooltip.closeOnMouseDown (Tooltip.props s)) = true
  | Tooltip.KeyDown key => key = "Escape" /\ Tooltip.isOpen s = true
  | _ => False
  end.

End TooltipView.

(** ** More sample inputs *)

Module MoreSamples.


Definition plain (fields : list Member) : ButtonView.Element :=
  {| ButtonView.props := object fields; ButtonView.defaultProps := None |}.

Definition account (login : string) : Team.Account :=
  {| Team.login := login; Team.profile := ∅ |}.

(** A comparator on logins, by code units. *)
Definition compare_logins (a b : string) : Z :=
  match String.compare a b with
  | Lt => (-1)%Z
  | Eq => 0%Z
  | Gt => 1%Z
  end.

Definition hit (url : string) (content lvl1 : option string) : Search.Item :=
  {| Search.url := url; Search.content := content;
     Search.lvl0 := Some "Components"; Search.lvl1 := lvl1 |}.

Definition avatar (src name : option string) : AvatarView.AvatarProps :=
  {| AvatarView.src := src; AvatarView.name := name;
     AvatarView.onError := Some "onError" |}.

(** An uncontrolled tooltip with the given delays, enabled or not. *)
Definition tooltip (open close : nat) (disabled : option bool)
    : Tooltip.UseTooltipProps :=
  {| Tooltip.openDelay := Some open; Tooltip.closeDelay := Some close;
     Tooltip.closeOnClick := None; Tooltip.closeOnMouseDown := None;
     Tooltip.onOpenProp := Some "onOpen"; Tooltip.onCloseProp := Some "onClose";
     Tooltip.isOpenProp := None; Tooltip.defaultIsOpen := None;
     Tooltip.isDisabled := disabled |}.

(** A controlled tooltip, shown or hidden by its owner. *)
Definition controlled_tooltip (shown : bool) : Tooltip.UseTooltipProps :=
  {| Tooltip.openDelay := Some 100; Tooltip.closeDelay := Some 100;
     Tooltip.closeOnClick := None; Tooltip.closeOnMouseDown := None;
     Tooltip.onOpenProp := Some "onOpen"; Tooltip.onCloseProp := Some "onClose";
     Tooltip.isOpenProp := Some shown; Tooltip.defaultIsOpen := None;
     Tooltip.isDisabled := None |}.

End MoreSamples.

(** * Properties *)

(** ** Avatar initials *)

Section AvatarFacts.
Import Avatar.

Lemma split_space_words (s : string) :
  split " " s =
  first_word s :: match after_space s with
                  | Some rest => split " " rest
                  | None => []
                  end.
Proof.
  induction s as [|c s IH]; simpl; [reflexivity|].
  destruct (Ascii.eqb c " "); [reflexivity|].
  rewrite IH. reflexivity.
Qed.

Lemma split_first (s : string) : split " " s !! 0 = Some (first_word s).
Proof. rewrite split_space_words. reflexivity. Qed.

Lemma split_second (s : string) : split " " s !! 1 = second_word s.
Proof.
  rewrite split_space_words. unfold second_word. simpl.
  destruct (after_space s) as [rest|]; [|reflexivity].
  simpl. apply split_first.
Qed.

Lemma getInitials_eq (name : string) :
  getInitials name =
  if truthy_string (Some (first_word name)) && truthy_string (second_word name)
  then mret (charAt (first_word name) 0 +:+
             charAt (default "" (second_word name)) 0)
  else mret (charAt (first_word name) 0).
Proof.
  unfold getInitials. rewrite split_first, split_second.
  destruct (truthy_string (Some (first_word name))); simpl; [|reflexivity].
  destruct (second_word name) as [w2|]; simpl; [|reflexivity].
  destruct (negb (w2 =? "")); reflexivity.
Qed.

Lemma nonempty_truthy (w : string) : w ≠ "" -> negb (w =? "") = true.
Proof.
  intros H. destruct (String.eqb_spec w ""); [contradiction|reflexivity].
Qed.

End AvatarFacts.

(** C10. [getInitials] completes normally on every string and writes
    nothing to the console.  When the first two space-separated words of
    the name are both non-empty the result is the first character of the
    first word followed by the first character of the second, whatever
    comes after; for every other name it is the first character of the
    text before the first space, which is the empty string when that text
    is empty. *)
Theorem getInitials_spec (name : string) :
  (exists initials, Avatar.getInitials name = (Normal initials, [])) /\
  (forall w2,
     Avatar.second_word name = Some w2 ->
     Avatar.first_word name ≠ "" -> w2 ≠ "" ->
     Avatar.getInitials name =
     mret (charAt (Avatar.first_word name) 0 +:+ charAt w2 0)) /\
  (¬ (Avatar.first_word name ≠ "" /\
      exists w2, Avatar.second_word name = Some w2 /\ w2 ≠ "") ->
     Avatar.getInitials name = mret (charAt (Avatar.first_word name) 0)) /\
  (Avatar.first_word name = "" -> Avatar.getInitials name = mret "").
Proof.
  rewrite getInitials_eq. unfold Avatar.truthy_string.
  repeat split.
  - destruct (_ && _); eexists; reflexivity.
  - intros w2 Hw2 H1 H2. rewrite Hw2. simpl.
    rewrite (nonempty_truthy _ H1), (nonempty_truthy _ H2). reflexivity.
  - intros Hno.
    destruct (String.eqb_spec (Avatar.first_word name) "") as [E|N];
      simpl; [reflexivity|].
    destruct (Avatar.second_word name) as [w2|]; [|reflexivity].
    destruct (String.eqb_spec w2 "") as [E2|N2]; simpl; [reflexivity|].
    exfalso. apply Hno. split; [assumption|]. exists w2. auto.
  - intros E. rewrite E. simpl. reflexivity.
Qed.

Lemma getInitials_spec_witness :
  Avatar.getInitials "John Doe Smith" = mret "JD" /\
  Avatar.getInitials "John  Doe" = mret "J" /\
  Avatar.getInitials " Doe" = mret "".
Proof.
  split; [|split].
  - exact (proj1 (proj2 (getInitials_spec "John Doe Smith")) "Doe"
             eq_refl ltac:(discriminate) ltac:(discriminate)).
  - apply (proj1 (proj2 (proj2 (getInitials_spec "John  Doe")))).
    intros [_ [w2 [E N]]]. vm_compute in E. congruence.
  - apply (proj2 (proj2 (proj2 (getInitials_spec " Doe")))). reflexivity.
Defined.

(** ** Theme token lookup *)

Section LookupFacts.

Lemma get_keys (key : string) :
  (if truthy (VStr key) then split "." key else [key]) = split "." key.
Proof. destruct key; reflexivity. Qed.

Lemma get_unfold (obj : JSVal) (key : string) (def : JSVal) :
  get obj key def =
  let r := foldl walk_step obj (split "." key) in
  match r with
  | VUndef => def
  | _ => r
  end.
Proof. unfold get. rewrite get_keys. reflexivity. Qed.

Lemma walk_undef (path : list string) : foldl walk_step VUndef path = VUndef.
Proof. induction path as [|k path IH]; simpl; auto. Qed.



Lemma walk_resolves path : forall v r,
  foldl walk_step v path = r -> r ≠ VUndef -> resolves v path r.
Proof.
  induction path as [|k path IH]; simpl; intros v r Hwalk Hdef.
  - subst r. constructor. assumption.
  - destruct v as [| |b|q|s|o];
      try (unfold walk_step in Hwalk at 2; simpl in Hwalk;
           repeat match type of Hwalk with
                  | context [if ?c then _ else _] => destruct c
                  end;
           rewrite walk_undef in Hwalk; congruence).
    unfold walk_step in Hwalk at 2. simpl in Hwalk.
    destruct (o !! k) as [v'|] eqn:Hk; simpl in Hwalk.
    + econstructor; eauto.
    + rewrite walk_undef in Hwalk. congruence.
Qed.


Lemma get_absent table key def :
  ¬ present table key -> get table key def = def.
Proof.
  intros H. rewrite get_unfold. simpl.
  destruct (foldl walk_step table (split "." key)) eqn:E; try reflexivity;
    exfalso; apply H; eexists; apply walk_resolves; eauto; congruence.
Qed.

End LookupFacts.

(** The colour that the outlined Input style shows on focus is the result
    of the lookup of [focusBorderColor] in [theme.colors], with the string
    itself as the fallback. *)
Lemma outlinedStyle_focus_color (p : Input.StyleProps) :
  prop (prop (Input.outlinedStyle p) "_focus") "borderColor" =
  get (Input.theme_colors p) (Input.focusBorderColor p)
      (VStr (Input.focusBorderColor p)).
Proof. reflexivity. Qed.




(** ** Style resolution *)

(** Membership in a list written out in full. *)
Ltac in_list :=
  repeat first [apply list_elem_of_here | apply list_elem_of_further].

Ltac not_in_list :=
  let H := fresh "H" in
  intros H;
  repeat (apply elem_of_cons in H; destruct H as [H|H]; [discriminate H|]);
  apply elem_of_nil in H; exact H.

Lemma lookup_spread (o : Obj) (v : JSVal) (k : string) :
  spread o v !! k = first_of [own v k; o !! k].
Proof.
  destruct v as [| |b|q|s|src]; simpl; try (destruct (o !! k); reflexivity).
  rewrite lookup_union.
  destruct (src !! k), (o !! k); reflexivity.
Qed.

Lemma run_bind_ret {A B} (a : A) (k : A -> Run B) : (mret a ≫= k) = k a.
Proof.
  unfold mret, Run_ret, mbind, Run_bind. destruct (k a) as [r out].
  reflexivity.
Qed.

(** The variant fragment always arrives, and it is an object. *)
Lemma Input_variantProps_normal (p : Input.StyleProps) :
  exists fragment : Obj, Input.variantProps p = (Normal (VObj fragment), []).
Proof.
  unfold Input.variantProps. repeat case_decide; eexists; reflexivity.
Qed.

Lemma Button_variantStyle_normal (p : Button.StyledProps) :
  exists (fragment : Obj) out,
    Button.variantStyle p = (Normal (VObj fragment), out).
Proof.
  unfold Button.variantStyle. repeat case_decide; do 2 eexists; reflexivity.
Qed.

Lemma inputSizes_lookup_unknown (k : string) :
  k ∉ Input.sizes -> Input.inputSizes !! k = None.
Proof.
  unfold Input.sizes. intros H.
  unfold Input.inputSizes, object. cbn [foldl].
  rewrite !lookup_insert_ne, lookup_empty; [reflexivity|..];
    intros <-; apply H; in_list.
Qed.

(** C6, as the code has it.  For a variant key that the resolver has no
    case for, Button's [variantStyle] completes normally with the empty
    fragment and writes exactly one warning to the console; Input's
    [variantProps] completes normally with the empty fragment and writes
    nothing.  Neither throws. *)
Theorem unknown_variant_empty_fragment :
  (forall p : Button.StyledProps,
     Button.buttonVariant p ∉ Button.variants ->
     Button.variantStyle p =
     (Normal (VObj ∅), [ConsoleWarn "passed variant prop is invalid "])) /\
  (forall p : Input.StyleProps,
     (forall v, Input.variant p = Some v -> v ∉ Input.variants) ->
     Input.variantProps p = (Normal (VObj ∅), [])).
Proof.
  split.
  - intros p H. unfold Button.variants in H. unfold Button.variantStyle.
    repeat case_decide;
      try (exfalso; apply H;
           match goal with E : Button.buttonVariant p = _ |- _ => rewrite E end;
           in_list).
    reflexivity.
  - intros p H. unfold Input.variantProps.
    repeat case_decide;
      try (exfalso;
           match goal with E : Input.variant p = Some _ |- _ =>
             apply (H _ E) end;
           unfold Input.variants; in_list).
    reflexivity.
Qed.

Lemma unknown_variant_empty_fragment_witness :
  Button.variantStyle (Samples.button (Some "bogus") None) =
    (Normal (VObj ∅), [ConsoleWarn "passed variant prop is invalid "]) /\
  Input.variantProps (Samples.input_style (Some "bogus") None) =
    (Normal (VObj ∅), []).
Proof.
  split.
  - apply (proj1 unknown_variant_empty_fragment).
    unfold Button.variants. simpl. not_in_list.
  - apply (proj2 unknown_variant_empty_fragment).
    simpl. intros v [= <-]. unfold Input.variants. not_in_list.
Defined.

(** C6, as the spec has it, fails for Input: the unknown variant
    ["bogus"] gives the empty fragment with no diagnostic at all. *)
Lemma Input_bogus_variant_no_diagnostic :
  ¬ exists diagnostic,
      Input.variantProps (Samples.input_style (Some "bogus") None) =
      (Normal (VObj ∅), [diagnostic]).
Proof. intros [d H]. vm_compute in H. discriminate. Qed.

Lemma themeGet_absent (path : string) (p : Button.StyledProps) :
  ¬ present (VObj (Button.theme p)) path -> Button.themeGet path p = VNull.
Proof. apply get_absent. Qed.

(** C8, as the spec has it, fails: for the unknown size ["xl"], and for a
    size left unset, the Input size fragment is [undefined], not the [md]
    entry. *)
Lemma unknown_size_is_not_md :
  Input.sizeProps (Samples.input_style None (Some "xl")) ≠
    Input.sizeProps (Samples.input_style None (Some "md")) /\
  Input.sizeProps (Samples.input_style None None) ≠
    Input.sizeProps (Samples.input_style None (Some "md")).
Proof. split; intros H; vm_compute in H; discriminate. Qed.

(** C8, as the code has it.  For a size that is unset or has no entry in
    [inputSizes], Input's size fragment is [undefined] and the resolved
    style is what width, base and variant give: there is no fallback, and
    the [md] entry is used for the key [md] only.  In Button a size left
    unset is replaced by [md] from [defaultProps] before the style is
    resolved, and a size with no entry under [sizes.button] in the theme
    contributes nothing but the full-width rule.  The size table of the
    NumberInput theme names [md] as its default. *)
Theorem size_fragment_without_fallback :
  (forall p : Input.StyleProps,
     key_of (Input.size p) ∉ Input.sizes -> Input.sizeProps p = VUndef) /\
  (forall theme mode (props : Input.Props),
     key_of (Input.props_size props) ∉ Input.sizes ->
     Input.useInputStyle theme mode props =
     (variant ← Input.variantProps (Input.with_context theme mode props);
      mret (object [
        Field "width" (Input.width_of props);
        Spread Input.baseProps;
        Spread variant ]))) /\
  (forall p : Input.StyleProps,
     Input.size p = Some "md" ->
     Input.sizeProps p = prop Input.inputSizes "md") /\
  (forall theme mode (props : Button.Props),
     Button.size props = None ->
     Button.buttonSize (Button.Button theme mode props) = "md") /\
  (forall (p : Button.StyledProps) k,
     ¬ present (VObj (Button.theme p))
               ("sizes.button." +:+ Button.buttonSize p) ->
     Button.sizeStyle p !! k =
     own (js_and (of_option_bool (Button.isFullWidth p))
                 (VObj (object [Field "width" "100%"]))) k) /\
  prop NumberInput.variantSize "__default" = VStr "md".
Proof.
  assert (Hsize : forall p : Input.StyleProps,
            key_of (Input.size p) ∉ Input.sizes ->
            Input.sizeProps p = VUndef).
  { intros p H. unfold Input.sizeProps, prop.
    rewrite (inputSizes_lookup_unknown _ H). reflexivity. }
  split; [|split; [|split; [|split; [|split]]]].
  - exact Hsize.
  - intros theme mode props H. unfold Input.useInputStyle.
    rewrite run_bind_ret, (Hsize (Input.with_context theme mode props) H).
    reflexivity.
  - intros p H. unfold Input.sizeProps. rewrite H. reflexivity.
  - intros theme mode props H. unfold Button.Button. simpl. rewrite H.
    reflexivity.
  - intros p k H. unfold Button.sizeStyle, Button.css, object.
    cbn [foldl]. rewrite (themeGet_absent _ _ H).
    rewrite !lookup_spread. cbn [own spread].
    rewrite !lookup_spread, lookup_empty. cbn [own first_of].
    destruct (own _ k); reflexivity.
  - reflexivity.
Qed.

Lemma size_fragment_without_fallback_witness :
  Input.sizeProps (Samples.input_style None (Some "xl")) = VUndef /\
  Input.sizeProps (Samples.input_style None None) = VUndef /\
  Input.sizeProps (Samples.input_style None (Some "md")) =
    prop Input.inputSizes "md" /\
  Button.buttonSize (Samples.button None None) = "md".
Proof.
  split; [|split; [|split]].
  - apply (proj1 size_fragment_without_fallback).
    simpl. unfold Input.sizes. not_in_list.
  - apply (proj1 size_fragment_without_fallback).
    simpl. unfold Input.sizes. not_in_list.
  - apply (proj1 (proj2 (proj2 size_fragment_without_fallback))).
    reflexivity.
  - apply (proj1 (proj2 (proj2 (proj2 size_fragment_without_fallback)))).
    reflexivity.
Defined.

(** C9. The resolved style answers for a key with the value of the last
    fragment, in the order base, disabled, focus, size, variant, that has
    the key.  So a key of the variant fragment keeps the variant's value
    whatever the size fragment holds for it: size never overrides variant.
    Button composes the five fragments in that order; Input composes
    width, base, size and variant, in that order. *)
Theorem variant_overrides_size :
  (forall (p : Button.StyledProps) variant out k,
     Button.variantStyle p = (Normal variant, out) ->
     exists style,
       Button.StyledButton p = (Normal style, out) /\
       style !! k =
         first_of [own variant k;
                   Button.sizeStyle p !! k;
                   Button.focusStyle p !! k;
                   Button.disabledStyle !! k;
                   Button.baseStyle !! k] /\
       (forall v, own variant k = Some v -> style !! k = Some v)) /\
  (forall theme mode (props : Input.Props) variant out k,
     Input.variantProps (Input.with_context theme mode props) =
       (Normal variant, out) ->
     exists style,
       Input.useInputStyle theme mode props = (Normal style, out) /\
       style !! k =
         first_of [own variant k;
                   own (Input.sizeProps
                          (Input.with_context theme mode props)) k;
                   Input.baseProps !! k;
                   own (VObj (object [Field "width" (Input.width_of props)])) k] /\
       (forall v, own variant k = Some v -> style !! k = Some v)).
Proof.
  split.
  - intros p variant out k H. unfold Button.StyledButton.
    rewrite !run_bind_ret, H. unfold mbind, Run_bind, mret, Run_ret.
    rewrite app_nil_r. eexists. split; [reflexivity|].
    assert (E : forall style : Obj,
              style = Button.css [VObj Button.baseStyle;
                                  VObj Button.disabledStyle;
                                  VObj (Button.focusStyle p);
                                  VObj (Button.sizeStyle p); variant] ->
              style !! k =
              first_of [own variant k; Button.sizeStyle p !! k;
                        Button.focusStyle p !! k; Button.disabledStyle !! k;
                        Button.baseStyle !! k]).
    { intros style ->. unfold Button.css. cbn [foldl].
      rewrite !lookup_spread, lookup_empty. cbn [own].
      destruct (own variant k), (Button.sizeStyle p !! k),
        (Button.focusStyle p !! k), (Button.disabledStyle !! k),
        (Button.baseStyle !! k); reflexivity. }
    split; [apply E; reflexivity|].
    intros v Hv. rewrite (E _ eq_refl), Hv. reflexivity.
  - intros theme mode props variant out k H. unfold Input.useInputStyle.
    rewrite run_bind_ret, H. unfold mbind, Run_bind, mret, Run_ret.
    rewrite app_nil_r. eexists. split; [reflexivity|].
    assert (E : forall style : Obj,
              style = object [
                Field "width" (Input.width_of props);
                Spread Input.baseProps;
                Spread (Input.sizeProps (Input.with_context theme mode props));
                Spread variant ] ->
              style !! k =
              first_of [own variant k;
                        own (Input.sizeProps
                               (Input.with_context theme mode props)) k;
                        Input.baseProps !! k;
                        own (VObj (object [Field "width" (Input.width_of props)])) k]).
    { intros style ->. unfold object. cbn [foldl].
      rewrite !lookup_spread. cbn [own].
      destruct (own variant k),
        (own (Input.sizeProps (Input.with_context theme mode props)) k),
        (Input.baseProps !! k); cbn [first_of];
        try destruct (_ !! k); reflexivity. }
    split; [apply E; reflexivity|].
    intros v Hv. rewrite (E _ eq_refl), Hv. reflexivity.
Qed.

Lemma variant_overrides_size_witness :
  (exists style,
     Input.useInputStyle Samples.theme light
       (Samples.input (Some "flushed") (Some "md")) = (Normal style, []) /\
     own (Input.sizeProps (Samples.input_style (Some "flushed") (Some "md")))
         "rounded" = Some (VStr "md") /\
     style !! "rounded" = Some (VNum 0)) /\
  (exists style,
     Button.StyledButton (Samples.button (Some "unstyled") None) =
       (Normal style, []) /\
     Button.sizeStyle (Samples.button (Some "unstyled") None)
       !! "lineHeight" = Some (VStr "1.5") /\
     style !! "lineHeight" = Some (VStr "inherit")).
Proof.
  split.
  - destruct (proj2 variant_overrides_size Samples.theme light
                (Samples.input (Some "flushed") (Some "md"))
                (VObj (Input.flushedStyle
                         (Samples.input_style (Some "flushed") (Some "md"))))
                [] "rounded" eq_refl) as (style & E & _ & Hv).
    exists style. split; [exact E|]. split; [reflexivity|].
    apply Hv. reflexivity.
  - destruct (proj1 variant_overrides_size
                (Samples.button (Some "unstyled") None)
                (VObj Button.unstyledStyle) [] "lineHeight" eq_refl)
      as (style & E & _ & Hv).
    exists style. split; [exact E|]. split; [reflexivity|].
    apply Hv. reflexivity.
Defined.

(** ** Disclosure *)

Section DisclosureFacts.
Import Disclosure.

Lemma commit_cells before after :
  isControlledRef (commit before after) = isControlledRef after /\
  isOpenState (commit before after) = isOpenState after /\
  props (commit before after) = props after /\
  called (commit before after) = called after.
Proof. unfold commit. case_decide; auto. Qed.

(** What a step leaves alone in a controlled hook. *)
Lemma step_controlled (h : Hook) (a : Action) :
  isControlledRef h = true ->
  isControlledRef (step h a) = true /\ isOpenState (step h a) = isOpenState h.
Proof.
  intros Hc.
  assert (Hclose : isControlledRef (onClose h) = true /\
                   isOpenState (onClose h) = isOpenState h).
  { unfold onClose, useDisclosure, useControllableProp. rewrite Hc. simpl.
    destruct (onCloseProp (props h)); auto. }
  assert (Hopen : isControlledRef (onOpen h) = true /\
                  isOpenState (onOpen h) = isOpenState h).
  { unfold onOpen, useDisclosure, useControllableProp. rewrite Hc. simpl.
    destruct (onOpenProp (props h)); auto. }
  destruct a as [| | |p]; simpl; auto.
  - unfold onToggle. destruct (Boolean (shown h)); auto.
  - unfold rerender.
    destruct (commit_cells h (set_props p h)) as (E1 & E2 & _).
    rewrite E1, E2. auto.
Qed.

Lemma run_controlled (actions : list Action) : forall h : Hook,
  isControlledRef h = true ->
  isControlledRef (run actions h) = true /\
  isOpenState (run actions h) = isOpenState h.
Proof.
  induction actions as [|a actions IH]; intros h Hc; [auto|].
  simpl. destruct (step_controlled h a Hc) as [Hc' Hs'].
  destruct (IH (step h a) Hc') as [IH1 IH2].
  unfold run in *. simpl. split; congruence.
Qed.

Lemma setIsOpen_isControlledRef b h :
  isControlledRef (setIsOpen b h) = isControlledRef h.
Proof. unfold setIsOpen. apply (commit_cells h (set_isOpenState b h)). Qed.

Lemma setIsOpen_props b h : props (setIsOpen b h) = props h.
Proof. unfold setIsOpen. apply (commit_cells h (set_isOpenState b h)). Qed.

Lemma onOpen_isControlledRef h :
  isControlledRef (onOpen h) = isControlledRef h.
Proof.
  unfold onOpen. destruct (negb _);
    rewrite ?setIsOpen_props; destruct (onOpenProp _); simpl;
    rewrite ?setIsOpen_isControlledRef; reflexivity.
Qed.

Lemma onClose_isControlledRef h :
  isControlledRef (onClose h) = isControlledRef h.
Proof.
  unfold onClose. destruct (negb _);
    rewrite ?setIsOpen_props; destruct (onCloseProp _); simpl;
    rewrite ?setIsOpen_isControlledRef; reflexivity.
Qed.

Lemma step_isControlledRef h a :
  isControlledRef (step h a) = isControlledRef h.
Proof.
  destruct a as [| | |p]; simpl.
  - apply onOpen_isControlledRef.
  - apply onClose_isControlledRef.
  - unfold onToggle. destruct (Boolean (shown h));
      [apply onClose_isControlledRef | apply onOpen_isControlledRef].
  - unfold rerender. apply (commit_cells h (set_props p h)).
Qed.

Lemma run_isControlledRef (actions : list Action) : forall h : Hook,
  isControlledRef (run actions h) = isControlledRef h.
Proof.
  induction actions as [|a actions IH]; intros h; [reflexivity|].
  unfold run in *. simpl. rewrite IH. apply step_isControlledRef.
Qed.

(** A controlled hook shows the external value. *)
Lemma controlled_shows_prop h :
  isControlledRef h = true ->
  isOpen (useDisclosure h) = Boolean (isOpenProp (props h)).
Proof.
  intros H. unfold useDisclosure, useControllableProp. rewrite H. reflexivity.
Qed.

Lemma onClose_called_controlled h :
  isControlledRef h = true ->
  called (onClose h) = (called h ++ option_list (onCloseProp (props h)))%list /\
  props (onClose h) = props h.
Proof.
  intros H. unfold onClose, useDisclosure, useControllableProp.
  rewrite H. simpl. destruct (onCloseProp (props h)); simpl;
    rewrite ?app_nil_r; auto.
Qed.

Lemma onOpen_called_controlled h :
  isControlledRef h = true ->
  called (onOpen h) = (called h ++ option_list (onOpenProp (props h)))%list /\
  props (onOpen h) = props h.
Proof.
  intros H. unfold onOpen, useDisclosure, useControllableProp.
  rewrite H. simpl. destruct (onOpenProp (props h)); simpl;
    rewrite ?app_nil_r; auto.
Qed.

End DisclosureFacts.

(** C1. Whether a disclosure is controlled is settled at construction, by
    whether an external [isOpen] was supplied, and no later operation
    changes it.  A disclosure constructed as controlled stays so through
    every sequence of calls and re-renders, also a re-render that leaves
    the external [isOpen] undefined: none of them writes the internal
    state, and a further call to open, close or toggle does not change
    what the disclosure shows, as it would in an uncontrolled one. *)
Theorem controlled_never_flips (p : Disclosure.DisclosureHookProps)
    (actions : list Disclosure.Action) :
  let h := Disclosure.run actions (Disclosure.mount p) in
  Disclosure.isControlled (Disclosure.useDisclosure h) =
    Disclosure.supplied (Disclosure.isOpenProp p) /\
  (forall b, Disclosure.isOpenProp p = Some b ->
     Disclosure.isControlled (Disclosure.useDisclosure h) = true /\
     Disclosure.isOpenState h = Disclosure.isOpenState (Disclosure.mount p) /\
     (forall call,
        call ∈ [Disclosure.CallOpen; Disclosure.CallClose;
                Disclosure.CallToggle] ->
        Disclosure.isOpen (Disclosure.useDisclosure (Disclosure.step h call)) =
        Disclosure.isOpen (Disclosure.useDisclosure h))).
Proof.
  intros h.
  assert (Hc : Disclosure.isControlled (Disclosure.useDisclosure h) =
               Disclosure.supplied (Disclosure.isOpenProp p)).
  { unfold h. unfold Disclosure.useDisclosure, Disclosure.useControllableProp.
    simpl. apply run_isControlledRef. }
  split; [exact Hc|].
  intros b Hb.
  assert (Hm : Disclosure.isControlledRef (Disclosure.mount p) = true).
  { simpl. rewrite Hb. reflexivity. }
  destruct (run_controlled actions _ Hm) as [H1 H2].
  split; [|split].
  - rewrite Hc, Hb. reflexivity.
  - exact H2.
  - intros call Hcall. fold h in H1.
    destruct (step_controlled h call H1) as [S1 S2].
    rewrite !controlled_shows_prop by assumption.
    f_equal. f_equal.
    destruct (onClose_called_controlled h H1) as [_ Pc].
    destruct (onOpen_called_controlled h H1) as [_ Po].
    repeat (apply elem_of_cons in Hcall; destruct Hcall as [-> | Hcall]);
      simpl; try assumption.
    + unfold Disclosure.onToggle.
      destruct (Disclosure.Boolean _); assumption.
    + apply elem_of_nil in Hcall. contradiction.
Qed.

Lemma controlled_never_flips_witness :
  let h := Disclosure.run
             [Disclosure.Rerender Disclosure.empty_config;
              Disclosure.CallOpen; Disclosure.CallToggle;
              Disclosure.CallClose]
             (Disclosure.mount Samples.controlled_open) in
  Disclosure.isControlled (Disclosure.useDisclosure h) = true /\
  Disclosure.isOpenState h = false /\
  Disclosure.isOpen (Disclosure.useDisclosure
                       (Disclosure.step h Disclosure.CallOpen)) =
    Disclosure.isOpen (Disclosure.useDisclosure h).
Proof.
  destruct (proj2 (controlled_never_flips Samples.controlled_open
                     [Disclosure.Rerender Disclosure.empty_config;
                      Disclosure.CallOpen; Disclosure.CallToggle;
                      Disclosure.CallClose]) true eq_refl)
    as (H1 & H2 & H3).
  split; [exact H1|]. split; [exact H2|].
  apply H3. apply list_elem_of_here.
Defined.

(** C4. An uncontrolled disclosure made from the empty config starts
    closed; after [open()] it is open and [prevIsOpen] is false; after a
    following [close()] it is closed and [prevIsOpen] is true. *)
Theorem uncontrolled_open_then_close :
  let h0 := Disclosure.mount Disclosure.empty_config in
  let h1 := Disclosure.onOpen h0 in
  let h2 := Disclosure.onClose h1 in
  Disclosure.isControlled (Disclosure.useDisclosure h0) = false /\
  Disclosure.isOpen (Disclosure.useDisclosure h0) = false /\
  Disclosure.isOpen (Disclosure.useDisclosure h1) = true /\
  Disclosure.prevIsOpen (Disclosure.useDisclosure h1) = false /\
  Disclosure.isOpen (Disclosure.useDisclosure h2) = false /\
  Disclosure.prevIsOpen (Disclosure.useDisclosure h2) = true.
Proof. cbv. auto 10. Qed.

(** C5. In a controlled disclosure [close()] leaves the shown [isOpen] as
    it is, still given by the external value, and invokes [onClose] when
    one was supplied; [open()] does the same with [onOpen]; neither writes
    the internal state.  [toggle()] is [close()] when the disclosure shows
    open and [open()] otherwise. *)
Theorem controlled_calls_keep_isOpen (h : Disclosure.Hook) :
  Disclosure.isControlled (Disclosure.useDisclosure h) = true ->
  (Disclosure.isOpen (Disclosure.useDisclosure (Disclosure.onClose h)) =
     Disclosure.isOpen (Disclosure.useDisclosure h) /\
   Disclosure.isOpenState (Disclosure.onClose h) = Disclosure.isOpenState h /\
   Disclosure.called (Disclosure.onClose h) =
     (Disclosure.called h ++
      option_list (Disclosure.onCloseProp (Disclosure.props h)))%list) /\
  (Disclosure.isOpen (Disclosure.useDisclosure (Disclosure.onOpen h)) =
     Disclosure.isOpen (Disclosure.useDisclosure h) /\
   Disclosure.isOpenState (Disclosure.onOpen h) = Disclosure.isOpenState h /\
   Disclosure.called (Disclosure.onOpen h) =
     (Disclosure.called h ++
      option_list (Disclosure.onOpenProp (Disclosure.props h)))%list) /\
  Disclosure.onToggle h =
    (if Disclosure.isOpen (Disclosure.useDisclosure h)
     then Disclosure.onClose h else Disclosure.onOpen h).
Proof.
  intros Hc.
  assert (Hr : Disclosure.isControlledRef h = true) by exact Hc.
  destruct (step_controlled h Disclosure.CallClose Hr) as [Hc1 Hs1].
  destruct (step_controlled h Disclosure.CallOpen Hr) as [Hc2 Hs2].
  destruct (onClose_called_controlled h Hr) as [Hl1 Hp1].
  destruct (onOpen_called_controlled h Hr) as [Hl2 Hp2].
  simpl in Hc1, Hs1, Hc2, Hs2.
  split; [|split].
  - rewrite !controlled_shows_prop, Hp1 by assumption. auto.
  - rewrite !controlled_shows_prop, Hp2 by assumption. auto.
  - unfold Disclosure.onToggle, Disclosure.shown, Disclosure.useDisclosure,
      Disclosure.useControllableProp. simpl.
    destruct (Disclosure.Boolean _); reflexivity.
Qed.

Lemma controlled_calls_keep_isOpen_witness :
  Disclosure.isOpen (Disclosure.useDisclosure
    (Disclosure.onClose (Disclosure.mount Samples.controlled_open))) = true /\
  Disclosure.called
    (Disclosure.onClose (Disclosure.mount Samples.controlled_open)) =
    ["onClose"].
Proof.
  destruct (controlled_calls_keep_isOpen
              (Disclosure.mount Samples.controlled_open) eq_refl)
    as [(H1 & _ & H2) _].
  split; [exact H1 | exact H2].
Defined.

(** ** Tooltip timers *)

Section TooltipFacts.
Import Tooltip.

Lemma enqueue_perm (t : Timer) (ts : list Timer) : enqueue t ts ≡ₚ t :: ts.
Proof.
  induction ts as [|u ts IH]; simpl; [reflexivity|].
  destruct (due u <=? due t)%nat; [|reflexivity].
  rewrite IH. apply Permutation_swap.
Qed.

Lemma Forall_enqueue (P : Timer -> Prop) t ts :
  P t -> Forall P ts -> Forall P (enqueue t ts).
Proof. intros Ht Hts. rewrite enqueue_perm. constructor; assumption. Qed.

Lemma filter_enqueue_skip (P : Timer -> Prop) `{!forall t, Decision (P t)}
    t ts :
  ¬ P t -> filter P (enqueue t ts) = filter P ts.
Proof.
  intros Ht. induction ts as [|u ts IH]; simpl.
  - rewrite filter_cons_False by assumption. reflexivity.
  - destruct (due u <=? due t)%nat.
    + rewrite !filter_cons, IH. reflexivity.
    + rewrite (filter_cons_False _ t) by assumption. reflexivity.
Qed.

(** Running [onClose] never opens a disclosure. *)
Lemma onClose_keeps_closed (h : Disclosure.Hook) :
  Disclosure.isOpen (Disclosure.useDisclosure h) = false ->
  Disclosure.isOpen (Disclosure.useDisclosure (Disclosure.onClose h)) = false.
Proof.
  unfold Disclosure.onClose, Disclosure.useDisclosure,
    Disclosure.useControllableProp, Disclosure.setIsOpen.
  destruct (Disclosure.isControlledRef h) eqn:Hc; simpl; intros H.
  - destruct (Disclosure.onCloseProp (Disclosure.props h)); simpl;
      rewrite Hc; exact H.
  - destruct (commit_cells h (Disclosure.set_isOpenState false h))
      as (E1 & E2 & E3 & _).
    rewrite E3. simpl.
    destruct (Disclosure.onCloseProp (Disclosure.props h)); simpl;
      rewrite E1, E2; simpl; rewrite Hc; reflexivity.
Qed.

Lemma opens_fired_close (s : State) (fs : list Handler) :
  filter (fun h => h = call_onOpen) (fs ++ [call_onClose])%list =
  filter (fun h => h = call_onOpen) fs.
Proof.
  rewrite filter_app. rewrite filter_cons_False by discriminate.
  rewrite filter_nil. apply app_nil_r.
Qed.

(** Timeouts that only close: what running them changes. *)
Lemma fire_closes (ready : list Timer) : forall s : State,
  Forall (fun t => handler t ≠ call_onOpen) ready ->
  let s' := foldl fire s ready in
  props s' = props s /\ timers s' = timers s /\
  enterTimeout s' = enterTimeout s /\ nextHandle s' = nextHandle s /\
  clock s' = clock s /\ opens s' = opens s /\
  (isOpen s = false -> isOpen s' = false).
Proof.
  induction ready as [|t ready IH]; intros s Hready; simpl; [tauto|].
  inversion Hready as [|? ? Ht Hrest]; subst.
  destruct (IH (fire s t) Hrest) as (E1 & E2 & E3 & E4 & E5 & E6 & E7).
  destruct (handler t) eqn:Hh; [contradiction|].
  rewrite E1, E2, E3, E4, E5, E6.
  repeat split; try reflexivity.
  - unfold opens, fire. simpl. rewrite Hh, opens_fired_close; auto.
  - intros Hclosed. apply E7. unfold isOpen, fire. simpl. rewrite Hh.
    apply onClose_keeps_closed. exact Hclosed.
Qed.

(** Time passes, and no timeout that would open comes due. *)
Lemma elapse_quiet (s : State) (ms : nat) :
  Forall (fun t => handler t = call_onOpen -> (clock s + ms < due t)%nat)
         (timers s) ->
  let s' := elapse ms s in
  props s' = props s /\
  timers s' = filter (fun t => ¬ (due t ≤ clock s + ms)%nat) (timers s) /\
  enterTimeout s' = enterTimeout s /\ nextHandle s' = nextHandle s /\
  clock s' = clock s + ms /\ opens s' = opens s /\
  (isOpen s = false -> isOpen s' = false).
Proof.
  intros Hlate. unfold elapse.
  match goal with |- context [foldl fire ?base ?ready] =>
    destruct (fire_closes ready base) as (E1 & E2 & E3 & E4 & E5 & E6 & E7)
  end.
  { apply Forall_forall. intros t [Hdue Hin]%list_elem_of_filter Hopen.
    rewrite Forall_forall in Hlate. specialize (Hlate t Hin Hopen). lia. }
  simpl in *. tauto.
Qed.

Lemma no_pending_open_filter (P : Timer -> Prop) `{!forall t, Decision (P t)}
    (ts : list Timer) :
  Forall (fun t => handler t ≠ call_onOpen) ts ->
  Forall (fun t => handler t ≠ call_onOpen) (filter P ts).
Proof.
  rewrite !Forall_forall. intros Hts t [_ Hin]%list_elem_of_filter. auto.
Qed.

(** A request to close: the open that [enterTimeout] names is cancelled and
    a close is queued. *)
Lemma closeWithDelay_cancels (s : State) :
  Forall (fun t => handler t = call_onOpen ->
                   enterTimeout s = Some (handle t) /\ handle t ≠ 0)
         (timers s) ->
  let s' := closeWithDelay s in
  no_pending_open s' /\ props s' = props s /\
  nextHandle s' = S (nextHandle s) /\ clock s' = clock s /\
  opens s' = opens s /\ isOpen s' = isOpen s.
Proof.
  intros Hnamed. unfold closeWithDelay, no_pending_open.
  destruct (truthy_handle (enterTimeout s)) eqn:Htruthy.
  - destruct (enterTimeout s) as [id|] eqn:Hid; [|discriminate].
    simpl. split; [|tauto].
    apply Forall_enqueue; [discriminate|].
    apply Forall_forall. intros t [Hne Hin]%list_elem_of_filter Hopen.
    rewrite Forall_forall in Hnamed.
    destruct (Hnamed t Hin Hopen) as [[= ->] _]. contradiction.
  - simpl. split; [|tauto].
    apply Forall_enqueue; [discriminate|].
    apply Forall_forall. intros t Hin Hopen.
    rewrite Forall_forall in Hnamed.
    destruct (Hnamed t Hin Hopen) as [E N].
    rewrite E in Htruthy. simpl in Htruthy.
    destruct (handle t); [contradiction|discriminate].
Qed.

Lemma no_pending_open_named (s : State) :
  no_pending_open s ->
  Forall (fun t => handler t = call_onOpen ->
                   enterTimeout s = Some (handle t) /\ handle t ≠ 0)
         (timers s).
Proof.
  unfold no_pending_open. rewrite !Forall_forall.
  intros H t Hin Hopen. destruct (H t Hin Hopen).
Qed.

Lemma no_pending_open_late (s : State) (ms : nat) :
  no_pending_open s ->
  Forall (fun t => handler t = call_onOpen -> (clock s + ms < due t)%nat)
         (timers s).
Proof.
  unfold no_pending_open. rewrite !Forall_forall.
  intros H t Hin Hopen. destruct (H t Hin Hopen).
Qed.

(** An event that is not a request to open keeps the queue free of opens,
    runs no [onOpen], and leaves a closed tooltip closed. *)
Lemma quiet_step (s : State) (e : Event) :
  ¬ open_trigger e -> no_pending_open s ->
  no_pending_open (step s e) /\ opens (step s e) = opens s /\
  (isOpen s = false -> isOpen (step s e) = false).
Proof.
  intros Hquiet Hfree.
  assert (Hclose : no_pending_open (closeWithDelay s) /\
                   opens (closeWithDelay s) = opens s /\
                   (isOpen s = false -> isOpen (closeWithDelay s) = false)).
  { destruct (closeWithDelay_cancels s (no_pending_open_named s Hfree))
      as (H1 & _ & _ & _ & H2 & H3).
    rewrite H3. auto. }
  assert (Hstay : no_pending_open s /\ opens s = opens s /\
                  (isOpen s = false -> isOpen s = false)) by auto.
  destruct e; simpl.
  - exfalso. apply Hquiet. left. reflexivity.
  - exfalso. apply Hquiet. right. reflexivity.
  - unfold onClick. destruct (close_on_click s); assumption.
  - unfold onMouseDown. destruct (Disclosure.Boolean _); assumption.
  - unfold onKeyDown. destruct (_ && _); assumption.
  - assumption.
  - assumption.
  - unfold unmount, clearTimeout, no_pending_open.
    destruct (enterTimeout s), (exitTimeout s); simpl;
      repeat split; auto; repeat apply no_pending_open_filter; exact Hfree.
  - destruct (elapse_quiet s ms (no_pending_open_late s ms Hfree))
      as (_ & E2 & _ & _ & _ & E6 & E7).
    split; [|auto].
    unfold no_pending_open. rewrite E2.
    apply no_pending_open_filter. exact Hfree.
Qed.

Lemma quiet_run (events : list Event) : forall s : State,
  Forall (fun e => ¬ open_trigger e) events -> no_pending_open s ->
  no_pending_open (run events s) /\ opens (run events s) = opens s /\
  (isOpen s = false -> isOpen (run events s) = false).
Proof.
  induction events as [|e events IH]; intros s Hquiet Hfree; [auto|].
  inversion Hquiet as [|? ? He Hrest]; subst.
  destruct (quiet_step s e He Hfree) as (H1 & H2 & H3).
  destruct (IH (step s e) Hrest H1) as (I1 & I2 & I3).
  unfold run in *. simpl. rewrite I2, H2. auto.
Qed.

Lemma fire_nextHandle (ready : list Timer) : forall s : State,
  nextHandle (foldl fire s ready) = nextHandle s.
Proof.
  induction ready as [|t ready IH]; intros s; simpl; [reflexivity|].
  rewrite IH. reflexivity.
Qed.

Lemma closeWithDelay_nextHandle (s : State) :
  nextHandle (closeWithDelay s) = S (nextHandle s).
Proof.
  unfold closeWithDelay, clearTimeout.
  destruct (truthy_handle _); [destruct (enterTimeout s)|]; reflexivity.
Qed.

Lemma step_nextHandle (s : State) (e : Event) :
  (nextHandle s ≤ nextHandle (step s e))%nat.
Proof.
  pose proof (closeWithDelay_nextHandle s) as Hc.
  destruct e; cbn [step]; try lia.
  - unfold openWithDelay. destruct (negb _); simpl; lia.
  - unfold openWithDelay. destruct (negb _); simpl; lia.
  - unfold onClick. destruct (close_on_click s); lia.
  - unfold onMouseDown. destruct (Disclosure.Boolean _); lia.
  - unfold onKeyDown. destruct (_ && _); lia.
  - unfold unmount, clearTimeout.
    destruct (enterTimeout s), (exitTimeout s); simpl; lia.
  - unfold elapse. rewrite fire_nextHandle. simpl. lia.
Qed.

(** Every handle a mounted tooltip gives out is greater than zero. *)
Lemma run_nextHandle (events : list Event) : forall s : State,
  (nextHandle s ≤ nextHandle (run events s))%nat.
Proof.
  induction events as [|e events IH]; intros s; [reflexivity|].
  unfold run in *. simpl.
  pose proof (step_nextHandle s e). pose proof (IH (step s e)). lia.
Qed.

End TooltipFacts.

(** With a single open waiting, the close does cancel it.  When a request
    to open (pointer enter or focus) arrives in a state with no open in
    the queue and is followed, less than [openDelay] milliseconds later,
    by a request to close (pointer leave or blur), no open is left in the
    queue, and from then on, as time passes and other events arrive short
    of a new request to open, no timeout runs [onOpen] and a closed
    tooltip stays closed. *)
Theorem close_within_open_delay_cancels_open
    (p : Tooltip.UseTooltipProps) (before later : list Tooltip.Event)
    (opening closing : Tooltip.Event) (d : nat) :
  let s := Tooltip.run before (Tooltip.mount p) in
  Tooltip.open_trigger opening ->
  Tooltip.close_trigger closing ->
  Tooltip.no_pending_open s ->
  (d < Tooltip.open_delay s)%nat ->
  Forall (fun e => ¬ Tooltip.open_trigger e) later ->
  let s1 := Tooltip.run [opening; Tooltip.Elapse d; closing] s in
  Tooltip.no_pending_open s1 /\
  Tooltip.opens (Tooltip.run later s1) = Tooltip.opens s /\
  (Tooltip.isOpen s = false -> Tooltip.isOpen (Tooltip.run later s1) = false).
Proof.
  intros s Hopening Hclosing Hfree Hd Hlater s1.
  assert (Hpos : Tooltip.nextHandle s ≠ 0).
  { pose proof (run_nextHandle before (Tooltip.mount p)) as H.
    simpl in H. fold s in H. lia. }
  assert (Es1 : s1 = Tooltip.closeWithDelay
                       (Tooltip.elapse d (Tooltip.openWithDelay s))).
  { unfold s1, Tooltip.run. simpl.
    destruct Hopening as [-> | ->], Hclosing as [-> | ->]; reflexivity. }
  assert (Hs1 : Tooltip.no_pending_open s1 /\
                Tooltip.opens s1 = Tooltip.opens s /\
                (Tooltip.isOpen s = false -> Tooltip.isOpen s1 = false)).
  { rewrite Es1. clear Es1 s1.
    set (s0 := Tooltip.openWithDelay s).
    assert (Hs0 : Tooltip.clock s0 = Tooltip.clock s /\
                  Tooltip.opens s0 = Tooltip.opens s /\
                  Tooltip.isOpen s0 = Tooltip.isOpen s /\
                  Forall (fun t =>
                    Tooltip.handler t = Tooltip.call_onOpen ->
                    (Tooltip.enterTimeout s0 = Some (Tooltip.handle t) /\
                     Tooltip.handle t ≠ 0) /\
                    (Tooltip.clock s + d < Tooltip.due t)%nat)
                    (Tooltip.timers s0)).
    { unfold s0, Tooltip.openWithDelay.
      destruct (negb _); simpl.
      - repeat split; try reflexivity.
        apply Forall_enqueue.
        { simpl. intros _. unfold Tooltip.open_delay in *.
          split; [split; [reflexivity|exact Hpos]|lia]. }
        eapply Forall_impl; [exact Hfree|]. simpl. intros t Hne Ht.
        contradiction.
      - repeat split; try reflexivity.
        eapply Forall_impl; [exact Hfree|]. simpl. intros t Hne Ht.
        contradiction. }
    destruct Hs0 as (Hclock & Hopens & HisOpen & Hnamed).
    destruct (elapse_quiet s0 d) as (E1 & E2 & E3 & E4 & E5 & E6 & E7).
    { rewrite Hclock. eapply Forall_impl; [exact Hnamed|]. simpl. tauto. }
    destruct (closeWithDelay_cancels (Tooltip.elapse d s0))
      as (C1 & _ & _ & _ & C5 & C6).
    { rewrite E2, E3. apply Forall_forall.
      intros t [_ Hin]%list_elem_of_filter Hopen.
      rewrite Forall_forall in Hnamed. apply (Hnamed t Hin Hopen). }
    split; [exact C1|]. split; [congruence|].
    intros Hclosed. rewrite C6. apply E7. congruence. }
  destruct Hs1 as (H1 & H2 & H3).
  destruct (quiet_run later s1 Hlater H1) as (Q1 & Q2 & Q3).
  split; [exact H1|]. split; [congruence|]. auto.
Qed.

Lemma close_within_open_delay_cancels_open_witness :
  let s1 := Tooltip.run [Tooltip.MouseEnter; Tooltip.Elapse 100;
                         Tooltip.MouseLeave]
              (Tooltip.mount (Tooltip.delays 300 0)) in
  Tooltip.no_pending_open s1 /\
  Tooltip.opens
    (Tooltip.run [Tooltip.Elapse 1000; Tooltip.Blur; Tooltip.Elapse 5] s1) = 0 /\
  Tooltip.isOpen
    (Tooltip.run [Tooltip.Elapse 1000; Tooltip.Blur; Tooltip.Elapse 5] s1)
    = false.
Proof.
  destruct (close_within_open_delay_cancels_open
              (Tooltip.delays 300 0) []
              [Tooltip.Elapse 1000; Tooltip.Blur; Tooltip.Elapse 5]
              Tooltip.MouseEnter Tooltip.MouseLeave 100)
    as (H1 & H2 & H3).
  - left. reflexivity.
  - left. reflexivity.
  - constructor.
  - simpl. unfold Tooltip.open_delay. simpl. lia.
  - repeat constructor; intros [H | H]; discriminate H.
  - split; [exact H1|]. split; [exact H2|]. apply H3. reflexivity.
Defined.

(** The handle cell remembers one open only.  When a second request to
    open arrives before the close, the close cancels the second and the
    first still runs. *)
Lemma second_open_request_survives_close :
  Tooltip.opens
    (Tooltip.run [Tooltip.MouseEnter; Tooltip.Focus; Tooltip.Elapse 100;
                  Tooltip.MouseLeave; Tooltip.Elapse 1000]
       (Tooltip.mount (Tooltip.delays 300 0))) = 1.
Proof. reflexivity. Qed.

(** C2, on the code.  With an open delay of 300 ms the pointer enters the
    trigger, the trigger takes focus 50 ms later, and it is clicked 50 ms
    after that: a request to close, well before either open is due.  The
    close cancels the open that [enterTimeout] names, which is the second;
    the first is still in the queue, runs [onOpen] at 300 ms, and the
    tooltip opens. *)
Theorem earlier_open_outlives_close :
  let hovered :=
    Tooltip.run [Tooltip.MouseEnter; Tooltip.Elapse 50; Tooltip.Focus;
                 Tooltip.Elapse 50]
      (Tooltip.mount (Tooltip.delays 300 0)) in
  let clicked := Tooltip.step hovered Tooltip.Click in
  let after := Tooltip.step clicked (Tooltip.Elapse 200) in
  Tooltip.handle <$> Tooltip.timers hovered = [1; 2] /\
  Tooltip.enterTimeout hovered = Some 2 /\
  Tooltip.handle <$>
    filter (fun t => Tooltip.handler t = Tooltip.call_onOpen)
           (Tooltip.timers clicked) = [1] /\
  Tooltip.clock after = 300 /\
  Tooltip.opens after = 1 /\
  Tooltip.isOpen after = true.
Proof. vm_compute. auto 10. Qed.

(** A request to open on an enabled trigger queues [onOpen] for
    [openDelay] milliseconds from now and records its handle. *)
Lemma openWithDelay_schedules (s : Tooltip.State) :
  Tooltip.isDisabled (Tooltip.props s) ∈ [None; Some false] ->
  Tooltip.timers (Tooltip.openWithDelay s) =
    Tooltip.enqueue
      {| Tooltip.handle := Tooltip.nextHandle s;
         Tooltip.due := Tooltip.clock s + Tooltip.open_delay s;
         Tooltip.handler := Tooltip.call_onOpen |}
      (Tooltip.timers s) /\
  Tooltip.enterTimeout (Tooltip.openWithDelay s) =
    Some (Tooltip.nextHandle s).
Proof.
  intros H. unfold Tooltip.openWithDelay.
  destruct (Tooltip.isDisabled (Tooltip.props s)) as [[|]|]; simpl; auto.
  exfalso. revert H. not_in_list.
Qed.

(** A request to open cancels nothing: the closes that were waiting are
    still waiting. *)
Lemma openWithDelay_keeps_pending_closes (s : Tooltip.State) :
  Tooltip.pending_closes (Tooltip.openWithDelay s) = Tooltip.pending_closes s.
Proof.
  unfold Tooltip.openWithDelay, Tooltip.pending_closes.
  destruct (negb _); simpl; [|reflexivity].
  rewrite filter_enqueue_skip; [reflexivity|]. simpl. discriminate.
Qed.

(** C3, on the code.  The pointer leaves an open tooltip, which schedules a
    close for 300 ms later, and comes back after 100 ms.  The request to
    open leaves that close in the queue; at 300 ms it runs [onClose], and
    the tooltip is closed with the pointer on the trigger. *)
Theorem reentry_leaves_close_pending :
  let left := Tooltip.run [Tooltip.MouseLeave; Tooltip.Elapse 100]
                (Tooltip.mount Samples.open_tooltip) in
  let back := Tooltip.step left Tooltip.MouseEnter in
  let after := Tooltip.step back (Tooltip.Elapse 200) in
  Tooltip.isOpen left = true /\
  Tooltip.pending_closes left = [1] /\
  Tooltip.pending_closes back = [1] /\
  Tooltip.closes after = 1 /\
  Tooltip.isOpen after = false.
Proof. vm_compute. auto 10. Qed.

(** ** Tooltip: when requests take effect *)

Lemma filter_none {A} (P : A -> Prop) `{!forall x, Decision (P x)}
    (l : list A) :
  Forall (fun x => ¬ P x) l -> filter P l = [].
Proof.
  induction 1 as [|x l Hx Hl IH]; [reflexivity|].
  rewrite filter_cons_False by assumption. exact IH.
Qed.

Section TooltipTimingFacts.
Import Tooltip.

Let by_due (a b : Timer) : Prop := (due a ≤ due b)%nat.

Lemma StronglySorted_enqueue (t : Timer) (ts : list Timer) :
  StronglySorted by_due ts -> StronglySorted by_due (enqueue t ts).
Proof.
  induction 1 as [|u ts Hs IH Hu]; simpl; [repeat constructor|].
  destruct (Nat.leb_spec (due u) (due t)) as [Hle|Hlt].
  - constructor; [exact IH|]. apply Forall_enqueue; assumption.
  - constructor; [constructor; assumption|].
    constructor; [unfold by_due; lia|].
    eapply Forall_impl; [exact Hu|]. unfold by_due. simpl. intros; lia.
Qed.

Lemma StronglySorted_filter_queue (P : Timer -> Prop)
    `{!forall t, Decision (P t)} (ts : list Timer) :
  StronglySorted by_due ts -> StronglySorted by_due (filter P ts).
Proof.
  induction 1 as [|u ts Hs IH Hu]; [constructor|].
  rewrite filter_cons. destruct (decide (P u)); [|exact IH].
  constructor; [exact IH|].
  apply Forall_forall. intros t [_ Hin]%list_elem_of_filter.
  rewrite Forall_forall in Hu. auto.
Qed.

(** In a queue kept by deadline, the timeout just set is the last of those
    due at its own deadline. *)
Lemma ready_enqueue (t : Timer) (ts : list Timer) :
  StronglySorted by_due ts ->
  filter (fun u => (due u ≤ due t)%nat) (enqueue t ts) =
  (filter (fun u => (due u ≤ due t)%nat) ts ++ [t])%list.
Proof.
  induction 1 as [|u ts Hs IH Hu]; simpl.
  - rewrite filter_cons_True by lia. reflexivity.
  - destruct (Nat.leb_spec (due u) (due t)) as [Hle|Hlt].
    + rewrite !filter_cons_True by assumption. rewrite IH. reflexivity.
    + rewrite filter_cons_True by lia.
      rewrite (filter_cons_False _ u) by lia.
      rewrite (filter_none _ ts); [reflexivity|].
      eapply Forall_impl; [exact Hu|]. unfold by_due. simpl. intros; lia.
Qed.

(** What running timeouts leaves alone, whatever they call. *)
Lemma fire_frame (ready : list Timer) : forall s : State,
  let s' := foldl fire s ready in
  props s' = props s /\ timers s' = timers s /\
  enterTimeout s' = enterTimeout s /\ exitTimeout s' = exitTimeout s /\
  clock s' = clock s /\
  Disclosure.isControlledRef (disclosure s') =
    Disclosure.isControlledRef (disclosure s) /\
  Disclosure.props (disclosure s') = Disclosure.props (disclosure s).
Proof.
  induction ready as [|t ready IH]; intros s; simpl; [tauto|].
  destruct (IH (fire s t)) as (E1 & E2 & E3 & E4 & E5 & E6 & E7).
  rewrite E1, E2, E3, E4, E5, E6, E7. simpl.
  repeat split; try reflexivity.
  - destruct (handler t);
      [apply onOpen_isControlledRef | apply onClose_isControlledRef].
  - destruct (handler t).
    + unfold Disclosure.onOpen. destruct (negb _);
        rewrite ?setIsOpen_props; destruct (Disclosure.onOpenProp _);
        simpl; rewrite ?setIsOpen_props; reflexivity.
    + unfold Disclosure.onClose. destruct (negb _);
        rewrite ?setIsOpen_props; destruct (Disclosure.onCloseProp _);
        simpl; rewrite ?setIsOpen_props; reflexivity.
Qed.

(** The state after a request to close. *)
Lemma closeWithDelay_shape (s : State) :
  exists kept,
    timers (closeWithDelay s) =
      enqueue {| handle := nextHandle s; due := clock s + close_delay s;
                 handler := call_onClose |} kept /\
    (StronglySorted by_due (timers s) -> StronglySorted by_due kept) /\
    props (closeWithDelay s) = props s /\
    disclosure (closeWithDelay s) = disclosure s /\
    clock (closeWithDelay s) = clock s /\
    fired (closeWithDelay s) = fired s.
Proof.
  unfold closeWithDelay, clearTimeout.
  destruct (truthy_handle (enterTimeout s));
    [destruct (enterTimeout s) as [id|]|]; simpl; eexists;
    (split; [reflexivity|]); repeat split; auto.
  apply StronglySorted_filter_queue.
Qed.

Lemma step_sorted (s : State) (e : Event) :
  TooltipView.queue_sorted s -> TooltipView.queue_sorted (step s e).
Proof.
  unfold TooltipView.queue_sorted. fold by_due. intros Hs.
  assert (Hclose : StronglySorted by_due (timers (closeWithDelay s))).
  { destruct (closeWithDelay_shape s) as (kept & E & Hk & _).
    rewrite E. apply StronglySorted_enqueue. auto. }
  assert (Hopen : StronglySorted by_due (timers (openWithDelay s))).
  { unfold openWithDelay. destruct (negb _); simpl; [|exact Hs].
    apply StronglySorted_enqueue. exact Hs. }
  destruct e; cbn [step]; try assumption.
  - unfold onClick. destruct (close_on_click s); assumption.
  - unfold onMouseDown. destruct (Disclosure.Boolean _); assumption.
  - unfold onKeyDown. destruct (_ && _); assumption.
  - unfold unmount, clearTimeout.
    destruct (enterTimeout s), (exitTimeout s); simpl;
      repeat apply StronglySorted_filter_queue; exact Hs.
  - unfold elapse.
    match goal with |- context [foldl fire ?base ?ready] =>
      destruct (fire_frame ready base) as (_ & E & _)
    end.
    rewrite E. simpl. apply StronglySorted_filter_queue. exact Hs.
Qed.

(** Every state a mounted tooltip reaches keeps its queue by deadline. *)
Lemma run_sorted (events : list Event) : forall s : State,
  TooltipView.queue_sorted s -> TooltipView.queue_sorted (run events s).
Proof.
  induction events as [|e events IH]; intros s Hs; [exact Hs|].
  unfold run in *. simpl. apply IH, step_sorted, Hs.
Qed.

Lemma step_frame (s : State) (e : Event) :
  props (step s e) = props s /\
  Disclosure.isControlledRef (disclosure (step s e)) =
    Disclosure.isControlledRef (disclosure s) /\
  Disclosure.props (disclosure (step s e)) = Disclosure.props (disclosure s).
Proof.
  assert (Hclose : props (closeWithDelay s) = props s /\
            Disclosure.isControlledRef (disclosure (closeWithDelay s)) =
              Disclosure.isControlledRef (disclosure s) /\
            Disclosure.props (disclosure (closeWithDelay s)) =
              Disclosure.props (disclosure s)).
  { destruct (closeWithDelay_shape s) as (kept & _ & _ & E1 & E2 & _).
    rewrite E1, E2. auto. }
  assert (Hopen : props (openWithDelay s) = props s /\
            Disclosure.isControlledRef (disclosure (openWithDelay s)) =
              Disclosure.isControlledRef (disclosure s) /\
            Disclosure.props (disclosure (openWithDelay s)) =
              Disclosure.props (disclosure s)).
  { unfold openWithDelay. destruct (negb _); simpl; auto. }
  destruct e; cbn [step]; try assumption.
  - unfold onClick. destruct (close_on_click s); auto.
  - unfold onMouseDown. destruct (Disclosure.Boolean _); auto.
  - unfold onKeyDown. destruct (_ && _); auto.
  - unfold unmount, clearTimeout.
    destruct (enterTimeout s), (exitTimeout s); simpl; auto.
  - unfold elapse.
    match goal with |- context [foldl fire ?base ?ready] =>
      destruct (fire_frame ready base) as (E1 & _ & _ & _ & _ & E6 & E7)
    end.
    rewrite E1, E6, E7. simpl. auto.
Qed.

Lemma run_frame (events : list Event) : forall s : State,
  props (run events s) = props s /\
  Disclosure.isControlledRef (disclosure (run events s)) =
    Disclosure.isControlledRef (disclosure s) /\
  Disclosure.props (disclosure (run events s)) = Disclosure.props (disclosure s).
Proof.
  induction events as [|e events IH]; intros s; [auto|].
  unfold run in *. simpl.
  destruct (IH (step s e)) as (I1 & I2 & I3).
  destruct (step_frame s e) as (S1 & S2 & S3).
  rewrite I1, I2, I3. auto.
Qed.

(** In an uncontrolled disclosure the calls decide what is shown. *)
Lemma uncontrolled_onClose (h : Disclosure.Hook) :
  Disclosure.isControlledRef h = false ->
  Disclosure.isOpen (Disclosure.useDisclosure (Disclosure.onClose h)) = false.
Proof.
  intros Hc.
  unfold Disclosure.onClose, Disclosure.useDisclosure,
    Disclosure.useControllableProp, Disclosure.setIsOpen.
  rewrite Hc. simpl.
  destruct (commit_cells h (Disclosure.set_isOpenState false h))
    as (E1 & E2 & E3 & _).
  rewrite E3. simpl.
  destruct (Disclosure.onCloseProp (Disclosure.props h)); simpl;
    rewrite E1, E2; simpl; rewrite Hc; reflexivity.
Qed.

Lemma uncontrolled_onOpen (h : Disclosure.Hook) :
  Disclosure.isControlledRef h = false ->
  Disclosure.isOpen (Disclosure.useDisclosure (Disclosure.onOpen h)) = true.
Proof.
  intros Hc.
  unfold Disclosure.onOpen, Disclosure.useDisclosure,
    Disclosure.useControllableProp, Disclosure.setIsOpen.
  rewrite Hc. simpl.
  destruct (commit_cells h (Disclosure.set_isOpenState true h))
    as (E1 & E2 & E3 & _).
  rewrite E3. simpl.
  destruct (Disclosure.onOpenProp (Disclosure.props h)); simpl;
    rewrite E1, E2; simpl; rewrite Hc; reflexivity.
Qed.

(** Time runs exactly to the deadline of the timeout just set: its handler
    is the last to run. *)
Lemma elapse_to_deadline (s : State) (t : Timer) (kept : list Timer) (ms : nat) :
  timers s = enqueue t kept -> StronglySorted by_due kept ->
  due t = clock s + ms ->
  exists before : State,
    elapse ms s = fire before t /\
    Disclosure.isControlledRef (disclosure before) =
      Disclosure.isControlledRef (disclosure s).
Proof.
  intros Et Hk Hdue. unfold elapse. rewrite Et, <- Hdue.
  rewrite (ready_enqueue t kept Hk), foldl_app. simpl.
  eexists. split; [reflexivity|].
  match goal with |- context [foldl fire ?base ?ready] =>
    destruct (fire_frame ready base) as (_ & _ & _ & _ & _ & E & _)
  end.
  rewrite E. reflexivity.
Qed.

End TooltipTimingFacts.

Lemma mount_sorted (p : Tooltip.UseTooltipProps) :
  TooltipView.queue_sorted (Tooltip.mount p).
Proof. constructor. Qed.

Lemma asks_to_close_step (s : Tooltip.State) (e : Tooltip.Event) :
  TooltipView.asks_to_close s e ->
  Tooltip.step s e = Tooltip.closeWithDelay s.
Proof.
  destruct e; simpl; try contradiction; try reflexivity.
  - intros H. unfold Tooltip.onClick. rewrite H. reflexivity.
  - intros H. unfold Tooltip.onMouseDown. rewrite H. reflexivity.
  - intros [-> H]. unfold Tooltip.onKeyDown. rewrite H. reflexivity.
Qed.

(** X1. A request to close an uncontrolled tooltip takes effect: whatever
    came before, when the pointer leaves, the trigger loses focus, it is
    clicked (unless [closeOnClick] is off), pressed (with
    [closeOnMouseDown]) or Escape is pressed while the tooltip is open,
    the tooltip is closed [closeDelay] milliseconds later. *)
Theorem close_request_takes_effect (p : Tooltip.UseTooltipProps)
    (before : list Tooltip.Event) (e : Tooltip.Event) :
  let s := Tooltip.run before (Tooltip.mount p) in
  Tooltip.isOpenProp p = None ->
  TooltipView.asks_to_close s e ->
  Tooltip.isOpen
    (Tooltip.run [e; Tooltip.Elapse (Tooltip.close_delay s)] s) = false.
Proof.
  intros s Hp He. unfold Tooltip.run at 1. simpl.
  rewrite (asks_to_close_step s e He).
  destruct (closeWithDelay_shape s) as (kept & Et & Hk & E1 & E2 & E3 & _).
  destruct (run_frame before (Tooltip.mount p)) as (_ & Hc & _).
  fold s in Hc. simpl in Hc. rewrite Hp in Hc. simpl in Hc.
  destruct (elapse_to_deadline (Tooltip.closeWithDelay s) _ kept
              (Tooltip.close_delay s) Et)
    as (prev & Ef & Hprev).
  { apply Hk. apply (run_sorted before), mount_sorted. }
  { cbn [Tooltip.due]. rewrite E3. reflexivity. }
  rewrite Ef. unfold Tooltip.isOpen, Tooltip.fire. simpl.
  apply uncontrolled_onClose. rewrite Hprev, E2. exact Hc.
Qed.

Lemma close_request_takes_effect_witness :
  Tooltip.isOpen
    (Tooltip.run [Tooltip.KeyDown "Escape"; Tooltip.Elapse 300]
       (Tooltip.run [Tooltip.MouseEnter; Tooltip.Elapse 50]
          (Tooltip.mount (MoreSamples.tooltip 50 300 None)))) = false.
Proof.
  apply (close_request_takes_effect (MoreSamples.tooltip 50 300 None)
           [Tooltip.MouseEnter; Tooltip.Elapse 50] (Tooltip.KeyDown "Escape")).
  - reflexivity.
  - split; reflexivity.
Defined.

(** X2. A request to open an enabled, uncontrolled tooltip takes effect:
    whatever came before, [openDelay] milliseconds after the pointer
    enters or the trigger takes focus the tooltip is open. *)
Theorem open_request_takes_effect (p : Tooltip.UseTooltipProps)
    (before : list Tooltip.Event) (e : Tooltip.Event) :
  let s := Tooltip.run before (Tooltip.mount p) in
  Tooltip.isOpenProp p = None ->
  Disclosure.Boolean (Tooltip.isDisabled p) = false ->
  Tooltip.open_trigger e ->
  Tooltip.isOpen
    (Tooltip.run [e; Tooltip.Elapse (Tooltip.open_delay s)] s) = true.
Proof.
  intros s Hp Hd He. unfold Tooltip.run at 1. simpl.
  destruct (run_frame before (Tooltip.mount p)) as (Hprops & Hc & _).
  fold s in Hc, Hprops. simpl in Hc, Hprops. rewrite Hp in Hc. simpl in Hc.
  assert (Es : Tooltip.step s e = Tooltip.openWithDelay s)
    by (destruct He as [-> | ->]; reflexivity).
  rewrite Es.
  set (s1 := Tooltip.openWithDelay s).
  assert (Hs1 : Tooltip.timers s1 =
                  Tooltip.enqueue
                    {| Tooltip.handle := Tooltip.nextHandle s;
                       Tooltip.due := Tooltip.clock s + Tooltip.open_delay s;
                       Tooltip.handler := Tooltip.call_onOpen |}
                    (Tooltip.timers s) /\
                Tooltip.clock s1 = Tooltip.clock s /\
                Tooltip.disclosure s1 = Tooltip.disclosure s).
  { unfold s1, Tooltip.openWithDelay. rewrite Hprops, Hd. simpl. auto. }
  destruct Hs1 as (Et & Eclock & Ed).
  destruct (elapse_to_deadline s1 _ (Tooltip.timers s)
              (Tooltip.open_delay s) Et)
    as (prev & Ef & Hprev).
  { apply (run_sorted before), mount_sorted. }
  { cbn [Tooltip.due]. rewrite Eclock. reflexivity. }
  rewrite Ef. unfold Tooltip.isOpen, Tooltip.fire. simpl.
  apply uncontrolled_onOpen. rewrite Hprev, Ed. exact Hc.
Qed.

Lemma open_request_takes_effect_witness :
  Tooltip.isOpen
    (Tooltip.run [Tooltip.Focus; Tooltip.Elapse 50]
       (Tooltip.run [Tooltip.MouseLeave]
          (Tooltip.mount (MoreSamples.tooltip 50 300 None)))) = true.
Proof.
  apply (open_request_takes_effect (MoreSamples.tooltip 50 300 None)
           [Tooltip.MouseLeave] Tooltip.Focus).
  - reflexivity.
  - reflexivity.
  - right. reflexivity.
Defined.

(** X3. A disabled tooltip that starts closed never opens: whatever
    events arrive, no open is ever queued, no timeout runs [onOpen], and
    the tooltip stays closed. *)
Theorem disabled_tooltip_never_opens (p : Tooltip.UseTooltipProps)
    (events : list Tooltip.Event) :
  Disclosure.Boolean (Tooltip.isDisabled p) = true ->
  Tooltip.isOpenProp p = None ->
  Disclosure.Boolean (Tooltip.defaultIsOpen p) = false ->
  let s := Tooltip.run events (Tooltip.mount p) in
  Tooltip.no_pending_open s /\ Tooltip.opens s = 0 /\ Tooltip.isOpen s = false.
Proof.
  intros Hd Hp Hdef.
  assert (Hgen : forall (s : Tooltip.State),
            Tooltip.props s = p -> Tooltip.no_pending_open s ->
            Tooltip.opens s = 0 -> Tooltip.isOpen s = false ->
            Tooltip.no_pending_open (Tooltip.run events s) /\
            Tooltip.opens (Tooltip.run events s) = 0 /\
            Tooltip.isOpen (Tooltip.run events s) = false).
  { induction events as [|e events IH]; intros s Hs Hfree Hopens Hclosed;
      [auto|].
    unfold Tooltip.run in *. simpl.
    destruct (step_frame s e) as (Hprops & _).
    destruct (decide (Tooltip.open_trigger e)) as [Ho|Hq].
    - assert (Es : Tooltip.step s e = s).
      { destruct Ho as [-> | ->]; simpl; unfold Tooltip.openWithDelay;
          rewrite Hs, Hd; reflexivity. }
      rewrite Es. apply IH; assumption.
    - destruct (quiet_step s e Hq Hfree) as (Q1 & Q2 & Q3).
      apply IH; [congruence|assumption|congruence|auto]. }
  apply Hgen.
  - reflexivity.
  - constructor.
  - reflexivity.
  - unfold Tooltip.isOpen, Tooltip.mount, Disclosure.useDisclosure,
      Disclosure.useControllableProp. simpl. rewrite Hp. simpl.
    rewrite Hdef. reflexivity.
Qed.

Lemma disabled_tooltip_never_opens_witness :
  Tooltip.isOpen
    (Tooltip.run [Tooltip.MouseEnter; Tooltip.Elapse 500; Tooltip.Focus;
                  Tooltip.Click; Tooltip.Elapse 500]
       (Tooltip.mount (MoreSamples.tooltip 50 300 (Some true)))) = false.
Proof.
  apply (disabled_tooltip_never_opens (MoreSamples.tooltip 50 300 (Some true))
           [Tooltip.MouseEnter; Tooltip.Elapse 500; Tooltip.Focus;
            Tooltip.Click; Tooltip.Elapse 500]); reflexivity.
Defined.

(** X4. A controlled tooltip shows what its owner says: through every
    sequence of events and timeouts [isOpen] is the external value. *)
Theorem controlled_tooltip_follows_prop (p : Tooltip.UseTooltipProps)
    (events : list Tooltip.Event) (shown : bool) :
  Tooltip.isOpenProp p = Some shown ->
  Tooltip.isOpen (Tooltip.run events (Tooltip.mount p)) = shown.
Proof.
  intros Hp.
  destruct (run_frame events (Tooltip.mount p)) as (_ & Hc & Hprops).
  simpl in Hc, Hprops. rewrite Hp in Hc. simpl in Hc.
  unfold Tooltip.isOpen. rewrite (controlled_shows_prop _ Hc), Hprops.
  simpl. rewrite Hp. reflexivity.
Qed.

Lemma controlled_tooltip_follows_prop_witness :
  Tooltip.isOpen
    (Tooltip.run [Tooltip.MouseEnter; Tooltip.Elapse 500]
       (Tooltip.mount (MoreSamples.controlled_tooltip false))) = false.
Proof.
  apply (controlled_tooltip_follows_prop
           (MoreSamples.controlled_tooltip false)
           [Tooltip.MouseEnter; Tooltip.Elapse 500] false).
  reflexivity.
Defined.

Lemma elapse_idle (s : Tooltip.State) (ms : nat) :
  Tooltip.timers s = [] ->
  Tooltip.timers (Tooltip.elapse ms s) = [] /\
  Tooltip.fired (Tooltip.elapse ms s) = Tooltip.fired s /\
  Tooltip.disclosure (Tooltip.elapse ms s) = Tooltip.disclosure s.
Proof. intros H. unfold Tooltip.elapse. rewrite H. simpl. auto. Qed.

(** X5. Teardown cancels the timeouts that the two timer cells name.  When
    every waiting timeout is one of those, the queue is empty after
    unmount, and however much time passes no handler runs and the
    disclosure is not touched again. *)
Theorem unmount_cancels_tracked (s : Tooltip.State) (later : list nat) :
  TooltipView.tracked s ->
  let s' := Tooltip.run (Tooltip.Elapse <$> later) (Tooltip.unmount s) in
  Tooltip.timers (Tooltip.unmount s) = [] /\
  Tooltip.fired s' = Tooltip.fired s /\
  Tooltip.disclosure s' = Tooltip.disclosure s.
Proof.
  intros Ht.
  assert (Hu : Tooltip.timers (Tooltip.unmount s) = [] /\
               Tooltip.fired (Tooltip.unmount s) = Tooltip.fired s /\
               Tooltip.disclosure (Tooltip.unmount s) = Tooltip.disclosure s).
  { unfold TooltipView.tracked in Ht. unfold Tooltip.unmount, Tooltip.clearTimeout.
    destruct (Tooltip.enterTimeout s) as [a|], (Tooltip.exitTimeout s) as [b|];
      simpl; (split; [|auto]).
    - rewrite list_filter_filter. apply filter_none.
      eapply Forall_impl; [exact Ht|]. simpl. intros t [[= ->]|[= ->]]; tauto.
    - apply filter_none.
      eapply Forall_impl; [exact Ht|]. simpl.
      intros t [[= ->]|[=]]; tauto.
    - apply filter_none.
      eapply Forall_impl; [exact Ht|]. simpl.
      intros t [[=]|[= ->]]; tauto.
    - destruct (Tooltip.timers s) as [|t ts]; [reflexivity|].
      inversion Ht as [|? ? [[=]|[=]] _]. }
  destruct Hu as (U1 & U2 & U3). split; [exact U1|].
  rewrite <- U2, <- U3. clear U2 U3.
  generalize dependent (Tooltip.unmount s). clear s Ht.
  induction later as [|ms later IH]; intros s Hs; [auto|].
  unfold Tooltip.run in *. simpl.
  destruct (elapse_idle s ms Hs) as (E1 & E2 & E3).
  destruct (IH _ E1) as (I1 & I2).
  split; [rewrite <- E2; exact I1 | rewrite <- E3; exact I2].
Qed.

Lemma unmount_cancels_tracked_witness :
  let s := Tooltip.run [Tooltip.MouseEnter; Tooltip.Elapse 10]
             (Tooltip.mount (MoreSamples.tooltip 50 300 None)) in
  Tooltip.timers (Tooltip.unmount s) = [] /\
  Tooltip.fired
    (Tooltip.run (Tooltip.Elapse <$> [100; 1000]) (Tooltip.unmount s)) = [].
Proof.
  destruct (unmount_cancels_tracked
              (Tooltip.run [Tooltip.MouseEnter; Tooltip.Elapse 10]
                 (Tooltip.mount (MoreSamples.tooltip 50 300 None)))
              [100; 1000]) as (H1 & H2 & _).
  - repeat constructor.
  - split; [exact H1 | exact H2].
Defined.

(** ** Disclosure: calls in either mode *)

Lemma setIsOpen_called (b : bool) (h : Disclosure.Hook) :
  Disclosure.called (Disclosure.setIsOpen b h) = Disclosure.called h.
Proof.
  unfold Disclosure.setIsOpen.
  apply (commit_cells h (Disclosure.set_isOpenState b h)).
Qed.

(** X6. In either mode a call reaches the host exactly once: [open()]
    invokes [onOpen] when one was supplied and nothing else, [close()]
    does the same with [onClose], and [toggle()] invokes the one that
    fits what the disclosure shows. *)
Theorem calls_invoke_their_callback (h : Disclosure.Hook) :
  Disclosure.called (Disclosure.onOpen h) =
    (Disclosure.called h ++
     option_list (Disclosure.onOpenProp (Disclosure.props h)))%list /\
  Disclosure.called (Disclosure.onClose h) =
    (Disclosure.called h ++
     option_list (Disclosure.onCloseProp (Disclosure.props h)))%list /\
  Disclosure.called (Disclosure.onToggle h) =
    (Disclosure.called h ++
     option_list
       (if Disclosure.isOpen (Disclosure.useDisclosure h)
        then Disclosure.onCloseProp (Disclosure.props h)
        else Disclosure.onOpenProp (Disclosure.props h)))%list.
Proof.
  assert (Ho : Disclosure.called (Disclosure.onOpen h) =
    (Disclosure.called h ++
     option_list (Disclosure.onOpenProp (Disclosure.props h)))%list).
  { unfold Disclosure.onOpen. destruct (negb _);
      rewrite ?setIsOpen_props; destruct (Disclosure.onOpenProp _); simpl;
      rewrite ?setIsOpen_called, ?app_nil_r; reflexivity. }
  assert (Hc : Disclosure.called (Disclosure.onClose h) =
    (Disclosure.called h ++
     option_list (Disclosure.onCloseProp (Disclosure.props h)))%list).
  { unfold Disclosure.onClose. destruct (negb _);
      rewrite ?setIsOpen_props; destruct (Disclosure.onCloseProp _); simpl;
      rewrite ?setIsOpen_called, ?app_nil_r; reflexivity. }
  split; [exact Ho|]. split; [exact Hc|].
  unfold Disclosure.onToggle.
  replace (Disclosure.isOpen (Disclosure.useDisclosure h))
    with (Disclosure.Boolean (Disclosure.shown h)) by reflexivity.
  destruct (Disclosure.Boolean (Disclosure.shown h)); assumption.
Qed.

(** X7. In an uncontrolled disclosure the calls decide what is shown, from
    any state: it is open after [open()], closed after [close()], and
    [toggle()] turns it over, so that two toggles bring it back. *)
Theorem uncontrolled_calls_decide (h : Disclosure.Hook) :
  Disclosure.isControlled (Disclosure.useDisclosure h) = false ->
  Disclosure.isOpen (Disclosure.useDisclosure (Disclosure.onOpen h)) = true /\
  Disclosure.isOpen (Disclosure.useDisclosure (Disclosure.onClose h)) = false /\
  Disclosure.isOpen (Disclosure.useDisclosure (Disclosure.onToggle h)) =
    negb (Disclosure.isOpen (Disclosure.useDisclosure h)) /\
  Disclosure.isOpen
    (Disclosure.useDisclosure (Disclosure.onToggle (Disclosure.onToggle h))) =
    Disclosure.isOpen (Disclosure.useDisclosure h).
Proof.
  intros Hc. assert (Hr : Disclosure.isControlledRef h = false) by exact Hc.
  assert (Ht : forall g, Disclosure.isControlledRef g = false ->
            Disclosure.isOpen (Disclosure.useDisclosure (Disclosure.onToggle g)) =
            negb (Disclosure.isOpen (Disclosure.useDisclosure g))).
  { intros g Hg. unfold Disclosure.onToggle.
    replace (Disclosure.isOpen (Disclosure.useDisclosure g))
      with (Disclosure.Boolean (Disclosure.shown g)) by reflexivity.
    destruct (Disclosure.Boolean (Disclosure.shown g)); simpl;
      [apply uncontrolled_onClose | apply uncontrolled_onOpen]; exact Hg. }
  split; [apply uncontrolled_onOpen; exact Hr|].
  split; [apply uncontrolled_onClose; exact Hr|].
  split; [apply Ht; exact Hr|].
  rewrite Ht, Ht, negb_involutive; [reflexivity|exact Hr|].
  pose proof (step_isControlledRef h Disclosure.CallToggle) as E.
  simpl in E. congruence.
Qed.

Lemma uncontrolled_calls_decide_witness :
  Disclosure.isOpen
    (Disclosure.useDisclosure
       (Disclosure.onToggle (Disclosure.mount Disclosure.empty_config))) = true.
Proof.
  exact (proj1 (proj2 (proj2 (uncontrolled_calls_decide
                                (Disclosure.mount Disclosure.empty_config)
                                eq_refl)))).
Defined.

(** ** Style resolution: what the resolved style holds *)

Lemma lookup_css5 (a b c d e : JSVal) (k : string) :
  Button.css [a; b; c; d; e] !! k =
  first_of [own e k; own d k; own c k; own b k; own a k].
Proof.
  unfold Button.css. cbn [foldl]. rewrite !lookup_spread, lookup_empty.
  destruct (own e k), (own d k), (own c k), (own b k), (own a k); reflexivity.
Qed.

Lemma StyledButton_unfold (p : Button.StyledProps) :
  Button.StyledButton p =
  (variant ← Button.variantStyle p;
   mret (Button.css [VObj Button.baseStyle; VObj Button.disabledStyle;
                     VObj (Button.focusStyle p); VObj (Button.sizeStyle p);
                     variant])).
Proof. unfold Button.StyledButton. rewrite !run_bind_ret. reflexivity. Qed.

Lemma run_bind_normal {A B} (a : A) (out : list ConsoleCall) (f : A -> B) :
  ((Normal a, out) ≫= (fun x => mret (f x)) : Run B) = (Normal (f a), out).
Proof.
  unfold mbind, Run_bind, mret, Run_ret. rewrite app_nil_r. reflexivity.
Qed.

(** The lookups below have their keys written out; the values stay
    symbolic. *)
Ltac by_keys := vm_compute; reflexivity.

(** No variant fragment of Button sets a width. *)
Lemma Button_variant_no_width (p : Button.StyledProps) variant out :
  Button.variantStyle p = (Normal variant, out) -> own variant "width" = None.
Proof.
  unfold Button.variantStyle. repeat case_decide; intros [= <- _];
    cbn [own];
    unfold Button.solidColorStyle, Button.outlineColorStyle,
      Button.ghostColorStyle, Button.linkStyle;
    try (destruct (Button.buttonColor p =? "gray"));
    try (destruct (Button.mode p)); by_keys.
Qed.

(** X8. A Button whose colour is set, and is not gray, is styled the same
    in light and in dark mode: only the gray scheme reads the mode. *)
Theorem colored_button_ignores_mode (theme : Obj) (props : Button.Props)
    (m1 m2 : ColorMode) :
  Button.color props ∉ [None; Some "gray"] ->
  Button.StyledButton (Button.Button theme m1 props) =
  Button.StyledButton (Button.Button theme m2 props).
Proof.
  intros Hc.
  assert (Hneq : (default (Button.default_color Button.defaultProps)
                          (Button.color props) =? "gray") = false).
  { destruct (Button.color props) as [c|]; simpl.
    - destruct (String.eqb_spec c "gray") as [->|]; [|reflexivity].
      exfalso. apply Hc. in_list.
    - exfalso. apply Hc. in_list. }
  unfold Button.StyledButton, Button.variantStyle, Button.solidColorStyle,
    Button.outlineColorStyle, Button.ghostColorStyle, Button.linkStyle,
    Button.focusStyle, Button.sizeStyle, Button.themeGet, Button.Button.
  cbn [Button.buttonColor Button.buttonVariant Button.theme
       Button.buttonSize Button.isFullWidth Button.mode].
  rewrite Hneq. cbn [js_and truthy]. reflexivity.
Qed.

Lemma colored_button_ignores_mode_witness :
  Button.StyledButton
    (Button.Button Samples.theme light
       {| Button.variant := Some "outline"; Button.size := None;
          Button.color := Some "teal"; Button.fullWidth := None |}) =
  Button.StyledButton
    (Button.Button Samples.theme dark
       {| Button.variant := Some "outline"; Button.size := None;
          Button.color := Some "teal"; Button.fullWidth := None |}).
Proof.
  apply (colored_button_ignores_mode Samples.theme
           {| Button.variant := Some "outline"; Button.size := None;
              Button.color := Some "teal"; Button.fullWidth := None |}
           light dark).
  not_in_list.
Defined.

(** X9. A full-width Button is 100% wide whatever the theme holds for its
    size and whatever its variant, known or not: the full-width rule is
    written after the size entry, and no variant sets a width. *)
Theorem full_width_button (p : Button.StyledProps) :
  Button.isFullWidth p = Some true ->
  exists style out,
    Button.StyledButton p = (Normal style, out) /\
    style !! "width" = Some (VStr "100%").
Proof.
  intros Hfull.
  destruct (Button_variantStyle_normal p) as (fragment & out & Hv).
  exists (Button.css [VObj Button.baseStyle; VObj Button.disabledStyle;
                      VObj (Button.focusStyle p); VObj (Button.sizeStyle p);
                      VObj fragment]), out.
  split.
  - rewrite StyledButton_unfold, Hv.
    apply (run_bind_normal (VObj fragment) out
             (fun variant =>
                Button.css [VObj Button.baseStyle; VObj Button.disabledStyle;
                            VObj (Button.focusStyle p);
                            VObj (Button.sizeStyle p); variant])).
  - rewrite lookup_css5, (Button_variant_no_width p _ _ Hv).
    cbn [own first_of].
    assert (Hsize : Button.sizeStyle p !! "width" = Some (VStr "100%")).
    { unfold Button.sizeStyle, Button.css, object. cbn [foldl].
      rewrite Hfull. cbn [of_option_bool js_and truthy].
      rewrite lookup_spread. cbn [own]. rewrite lookup_spread. cbn [own].
      rewrite lookup_insert_eq. reflexivity. }
    rewrite Hsize. reflexivity.
Qed.

Lemma full_width_button_witness :
  exists style out,
    Button.StyledButton
      (Button.Button Samples.theme light
         {| Button.variant := Some "ghost"; Button.size := Some "md";
            Button.color := None; Button.fullWidth := Some true |}) =
      (Normal style, out) /\
    style !! "width" = Some (VStr "100%").
Proof.
  apply (full_width_button
           (Button.Button Samples.theme light
              {| Button.variant := Some "ghost"; Button.size := Some "md";
                 Button.color := None; Button.fullWidth := Some true |})).
  reflexivity.
Defined.

(** X10. Button warns on the console exactly when the variant is not one
    of its five: resolving the style of a known variant writes nothing. *)
Theorem button_warns_only_on_unknown_variant (p : Button.StyledProps) :
  console (Button.StyledButton p) = [] <->
  Button.buttonVariant p ∈ Button.variants.
Proof.
  rewrite StyledButton_unfold. unfold Button.variantStyle, Button.variants.
  repeat case_decide;
    try (split; [intros _;
                 match goal with E : Button.buttonVariant p = _ |- _ =>
                   rewrite E end; in_list
                | intros _; reflexivity]).
  split; [intros Hout; vm_compute in Hout; discriminate|].
  intros Hin. exfalso.
  repeat (apply elem_of_cons in Hin; destruct Hin as [Hin|Hin];
          [contradiction|]).
  apply elem_of_nil in Hin. exact Hin.
Qed.

Lemma button_warns_only_on_unknown_variant_witness :
  console (Button.StyledButton (Samples.button (Some "link") None)) = [].
Proof.
  apply (proj2 (button_warns_only_on_unknown_variant
                  (Samples.button (Some "link") None))).
  unfold Button.variants. simpl. in_list.
Defined.

(** The resolved Input style, and a lookup in it. *)
Lemma useInputStyle_lookup (theme : Obj) (mode : ColorMode)
    (props : Input.Props) :
  exists (variant : Obj) (style : Obj),
    Input.variantProps (Input.with_context theme mode props) =
      (Normal (VObj variant), []) /\
    Input.useInputStyle theme mode props = (Normal style, []) /\
    forall k,
      style !! k =
      first_of [variant !! k;
                own (Input.sizeProps (Input.with_context theme mode props)) k;
                Input.baseProps !! k;
                own (VObj (object [Field "width" (Input.width_of props)])) k].
Proof.
  destruct (Input_variantProps_normal (Input.with_context theme mode props))
    as (variant & Hv).
  exists variant. eexists. split; [exact Hv|]. split.
  - unfold Input.useInputStyle. rewrite run_bind_ret, Hv.
    apply (run_bind_normal (VObj variant) []
             (fun variant_fragment =>
                object [Field "width" (Input.width_of props);
                        Spread Input.baseProps;
                        Spread (Input.sizeProps
                                  (Input.with_context theme mode props));
                        Spread variant_fragment])).
  - intros k. unfold object. cbn [foldl]. rewrite !lookup_spread. cbn [own].
    destruct (variant !! k),
      (own (Input.sizeProps (Input.with_context theme mode props)) k),
      (Input.baseProps !! k); cbn [first_of];
      try destruct (_ !! k); reflexivity.
Qed.

(** The size fragment of Input is one of the three entries or nothing. *)
Lemma sizeProps_cases (p : Input.StyleProps) :
  Input.sizeProps p ∈
    [prop Input.inputSizes "lg"; prop Input.inputSizes "md";
     prop Input.inputSizes "sm"; VUndef].
Proof.
  unfold Input.sizeProps.
  destruct (decide (key_of (Input.size p) ∈ Input.sizes)) as [Hin|Hout].
  - unfold Input.sizes in Hin.
    repeat (apply elem_of_cons in Hin; destruct Hin as [-> | Hin];
            [in_list|]).
    apply elem_of_nil in Hin. contradiction.
  - unfold prop. rewrite (inputSizes_lookup_unknown _ Hout). simpl. in_list.
Qed.

(** The variant fragment of Input is one of the four styles or empty. *)
Lemma variantProps_cases (p : Input.StyleProps) :
  (Input.variantProps p).1 ∈
    [Normal (VObj (Input.flushedStyle p)); Normal (VObj Input.unstyledStyle);
     Normal (VObj (Input.filledStyle p)); Normal (VObj (Input.outlinedStyle p));
     Normal (VObj ∅)].
Proof.
  unfold Input.variantProps. repeat case_decide; simpl; in_list.
Qed.

Ltac each_in H :=
  repeat (apply elem_of_cons in H; destruct H as [H|H]);
  [..|apply elem_of_nil in H; contradiction].

(** X11. The layout of an Input is not open to its variant or size: in the
    resolved style [display], [alignItems], [position], [transition] and
    [outline] are those of [baseProps], for every variant, size, theme and
    colour mode. *)
Theorem input_base_layout_kept (theme : Obj) (mode : ColorMode)
    (props : Input.Props) (k : string) :
  k ∈ ["display"; "alignItems"; "position"; "transition"; "outline"] ->
  exists style,
    Input.useInputStyle theme mode props = (Normal style, []) /\
    style !! k = Input.baseProps !! k /\ is_Some (style !! k).
Proof.
  intros Hk.
  destruct (useInputStyle_lookup theme mode props)
    as (variant & style & Hv & Hs & Hlook).
  exists style. split; [exact Hs|].
  pose proof (variantProps_cases (Input.with_context theme mode props)) as Hvc.
  pose proof (sizeProps_cases (Input.with_context theme mode props)) as Hsc.
  rewrite Hv in Hvc. simpl in Hvc. rewrite Hlook.
  revert Hsc. generalize (Input.sizeProps (Input.with_context theme mode props)).
  intros size Hsc.
  assert (Hvar : variant !! k = None).
  { each_in Hk; subst k; each_in Hvc; injection Hvc as ->; by_keys. }
  assert (Hsize : own size k = None).
  { each_in Hk; subst k; each_in Hsc; subst size; by_keys. }
  rewrite Hvar, Hsize. cbn [first_of].
  each_in Hk; subst k; split; try by_keys; eexists; by_keys.
Qed.

Lemma input_base_layout_kept_witness :
  exists style,
    Input.useInputStyle Samples.theme dark
      (Samples.input (Some "unstyled") (Some "lg")) = (Normal style, []) /\
    style !! "display" = Input.baseProps !! "display" /\
    is_Some (style !! "display").
Proof.
  apply (input_base_layout_kept Samples.theme dark
           (Samples.input (Some "unstyled") (Some "lg")) "display").
  in_list.
Defined.

(** X12. The flushed and the unstyled Input have no horizontal padding,
    whatever the size: their variant fragment clears [px].  Every other
    Input has the padding of its size entry, and none when the size has no
    entry. *)
Theorem input_padding_by_variant (theme : Obj) (mode : ColorMode)
    (props : Input.Props) :
  exists style,
    Input.useInputStyle theme mode props = (Normal style, []) /\
    (Input.props_variant props ∈ [Some "flushed"; Some "unstyled"] ->
     style !! "px" = Some VUndef) /\
    (Input.props_variant props ∉ [Some "flushed"; Some "unstyled"] ->
     style !! "px" =
     own (Input.sizeProps (Input.with_context theme mode props)) "px").
Proof.
  destruct (useInputStyle_lookup theme mode props)
    as (variant & style & Hv & Hs & Hlook).
  exists style. split; [exact Hs|].
  rewrite Hlook.
  assert (Hrest : Input.baseProps !! "px" = None /\
                  own (VObj (object [Field "width" (Input.width_of props)]))
                      "px" = None) by (split; by_keys).
  destruct Hrest as [Hb Hw]. rewrite Hb, Hw.
  unfold Input.variantProps in Hv.
  cbn [Input.variant Input.with_context] in Hv.
  split; intros Hvar.
  - each_in Hvar; rewrite Hvar in Hv; simpl in Hv; injection Hv as <-;
      by_keys.
  - repeat case_decide;
      try (exfalso; apply Hvar;
           match goal with E : Input.props_variant props = _ |- _ =>
             rewrite E end; solve [in_list]);
      injection Hv as <-;
      match goal with |- first_of (?v :: _) = _ =>
        replace v with (@None JSVal) by by_keys end;
      cbn [first_of];
      destruct (own (Input.sizeProps _) "px"); reflexivity.
Qed.

Lemma input_padding_by_variant_witness :
  exists style,
    Input.useInputStyle Samples.theme light
      (Samples.input (Some "flushed") (Some "lg")) = (Normal style, []) /\
    own (Input.sizeProps (Samples.input_style (Some "flushed") (Some "lg")))
        "px" = Some (VNum 4) /\
    style !! "px" = Some VUndef.
Proof.
  destruct (input_padding_by_variant Samples.theme light
              (Samples.input (Some "flushed") (Some "lg")))
    as (style & Hs & Hflat & _).
  exists style. split; [exact Hs|]. split; [reflexivity|].
  apply Hflat. in_list.
Defined.

Lemma prop_obj (o : Obj) (k : string) :
  prop (VObj o) k = default VUndef (o !! k).
Proof. reflexivity. Qed.

(** X13. In the flushed, filled and outline Input the border colour on
    focus and on error is looked up in [theme.colors] and falls back to
    the string given: a colour that is not a token of the theme reaches
    the resolved style unchanged, a token is replaced by its value. *)
Theorem input_border_colors_fail_soft (theme : Obj) (mode : ColorMode)
    (props : Input.Props) :
  Input.props_variant props ∈ [Some "flushed"; Some "filled"; Some "outline"] ->
  exists style,
    Input.useInputStyle theme mode props = (Normal style, []) /\
    prop (prop (VObj style) "_focus") "borderColor" =
      get (prop theme "colors") (Input.props_focusBorderColor props)
          (VStr (Input.props_focusBorderColor props)) /\
    prop (prop (VObj style) "_invalid") "borderColor" =
      get (prop theme "colors") (Input.props_errorBorderColor props)
          (VStr (Input.props_errorBorderColor props)) /\
    (¬ present (prop theme "colors") (Input.props_focusBorderColor props) ->
     prop (prop (VObj style) "_focus") "borderColor" =
       VStr (Input.props_focusBorderColor props)) /\
    (¬ present (prop theme "colors") (Input.props_errorBorderColor props) ->
     prop (prop (VObj style) "_invalid") "borderColor" =
       VStr (Input.props_errorBorderColor props)).
Proof.
  intros Hvar.
  destruct (useInputStyle_lookup theme mode props)
    as (variant & style & Hv & Hs & Hlook).
  exists style. split; [exact Hs|].
  assert (Hboth :
    prop (prop (VObj style) "_focus") "borderColor" =
      get (prop theme "colors") (Input.props_focusBorderColor props)
          (VStr (Input.props_focusBorderColor props)) /\
    prop (prop (VObj style) "_invalid") "borderColor" =
      get (prop theme "colors") (Input.props_errorBorderColor props)
          (VStr (Input.props_errorBorderColor props))).
  { rewrite (prop_obj style "_focus"), (prop_obj style "_invalid"), !Hlook.
    unfold Input.variantProps in Hv.
    cbn [Input.variant Input.with_context] in Hv.
    each_in Hvar; rewrite Hvar in Hv; simpl in Hv; injection Hv as <-;
      split; by_keys. }
  destruct Hboth as [Hf He].
  split; [exact Hf|]. split; [exact He|].
  split; intros Habs; [rewrite Hf | rewrite He]; apply get_absent; exact Habs.
Qed.

Lemma input_border_colors_fail_soft_witness :
  exists style,
    Input.useInputStyle Samples.theme light
      (Samples.input (Some "filled") (Some "sm")) = (Normal style, []) /\
    prop (prop (VObj style) "_focus") "borderColor" = VStr "#E2E8F0" /\
    prop (prop (VObj style) "_invalid") "borderColor" = VStr "#f00".
Proof.
  destruct (input_border_colors_fail_soft Samples.theme light
              (Samples.input (Some "filled") (Some "sm")))
    as (style & Hs & Hf & _ & _ & He).
  - in_list.
  - exists style. split; [exact Hs|]. split.
    + rewrite Hf. reflexivity.
    + apply He. intros [r H]. inversion H; subst.
      match goal with E : _ !! "#f00" = Some _ |- _ =>
        vm_compute in E; discriminate E end.
Defined.

(** ** Button: children and groups *)



Lemma cloneElement_lookup (e : ButtonView.Element) (config : Obj) (k : string) :
  ButtonView.props (ButtonView.cloneElement e config) !! k =
  match config !! k with
  | Some v =>
      Some match v, ButtonView.defaultProps e with
           | VUndef, Some defaults => default VUndef (defaults !! k)
           | _, _ => v
           end
  | None => ButtonView.props e !! k
  end.
Proof.
  unfold ButtonView.cloneElement. simpl.
  rewrite lookup_union, map_lookup_imap.
  destruct (config !! k) as [v|]; simpl;
    destruct (ButtonView.props e !! k); reflexivity.
Qed.

Lemma child_config_mr (size isAttached spacing : JSVal) (count idx : nat) :
  ButtonView.child_config size isAttached spacing count idx !! "mr" =
  if negb (idx + 1 =? count)%nat && negb (truthy isAttached)
  then Some spacing else None.
Proof.
  unfold ButtonView.child_config, object. cbn [foldl].
  rewrite lookup_spread.
  destruct (idx + 1 =? count)%nat, (truthy isAttached);
    cbn [js_and truthy negb andb own first_of];
    rewrite ?lookup_insert_eq, ?lookup_insert_ne, ?lookup_empty by discriminate;
    reflexivity.
Qed.

Lemma child_config_size (size isAttached spacing : JSVal) (count idx : nat) :
  ButtonView.child_config size isAttached spacing count idx !! "size" =
  Some size.
Proof.
  unfold ButtonView.child_config, object. cbn [foldl].
  rewrite lookup_spread.
  destruct (idx + 1 =? count)%nat, (truthy isAttached);
    cbn [js_and truthy negb andb own first_of];
    rewrite ?lookup_insert_eq, ?lookup_insert_ne, ?lookup_empty by discriminate;
    rewrite ?lookup_insert_eq; reflexivity.
Qed.

Lemma spacing_or_default_defined (spacing : JSVal) :
  ButtonView.spacing_or_default spacing ≠ VUndef.
Proof. destruct spacing; discriminate. Qed.

(** X15. [ButtonGroup] keeps the number and order of its children: the
    child it renders at a place is the child it was given there, with the
    same type and with every prop but [mr] and [size] as it came.  In a
    group that is not attached every child but the last gets the group's
    spacing (2 when none is given) as its right margin; the last child,
    and every child of an attached group, keeps the margin it came with.
    A size given to the group replaces the size of every child; with no
    size given, a child takes the default size of its type when the type
    has defaults, and loses its size otherwise. *)
Theorem button_group_spacing (size isAttached spacing : JSVal)
    (children : list ButtonView.Element) (idx : nat)
    (child : ButtonView.Element) :
  children !! idx = Some child ->
  length (ButtonView.ButtonGroup size isAttached spacing children) =
    length children /\
  exists child',
    ButtonView.ButtonGroup size isAttached spacing children !! idx =
      Some child' /\
    ButtonView.defaultProps child' = ButtonView.defaultProps child /\
    (forall k, k ∉ ["mr"; "size"] ->
       ButtonView.props child' !! k = ButtonView.props child !! k) /\
    (truthy isAttached = false -> idx + 1 ≠ length children ->
     ButtonView.props child' !! "mr" =
       Some (ButtonView.spacing_or_default spacing)) /\
    (truthy isAttached = true \/ idx + 1 = length children ->
     ButtonView.props child' !! "mr" = ButtonView.props child !! "mr") /\
    (size ≠ VUndef -> ButtonView.props child' !! "size" = Some size) /\
    (size = VUndef ->
     ButtonView.props child' !! "size" =
       Some match ButtonView.defaultProps child with
            | Some defaults => default VUndef (defaults !! "size")
            | None => VUndef
            end).
Proof.
  intros Hchild. unfold ButtonView.ButtonGroup.
  split; [apply length_imap|].
  eexists. split; [rewrite list_lookup_imap, Hchild; reflexivity|].
  split; [reflexivity|].
  split.
  { intros k Hk. rewrite cloneElement_lookup.
    assert (Hne : k ≠ "mr" /\ k ≠ "size")
      by (split; intros ->; apply Hk; in_list).
    destruct Hne as [Hmr Hsize].
    unfold ButtonView.child_config, object. cbn [foldl].
    rewrite lookup_spread.
    destruct (idx + 1 =? length children)%nat, (truthy isAttached);
      cbn [js_and truthy negb andb own first_of];
      rewrite ?lookup_insert_ne, ?lookup_empty by congruence;
      reflexivity. }
  rewrite !cloneElement_lookup, child_config_mr, child_config_size.
  split; [|split; [|split]].
  - intros Ha Hlast. rewrite Ha.
    destruct (Nat.eqb_spec (idx + 1) (length children)); [contradiction|].
    simpl. f_equal.
    pose proof (spacing_or_default_defined spacing).
    destruct (ButtonView.spacing_or_default spacing); congruence.
  - intros [Ha | Hlast].
    + rewrite Ha, andb_false_r. reflexivity.
    + rewrite Hlast, Nat.eqb_refl. reflexivity.
  - intros Hsize. f_equal. destruct size; congruence.
  - intros ->. destruct (ButtonView.defaultProps child); reflexivity.
Qed.

Lemma button_group_spacing_witness :
  exists first,
    ButtonView.ButtonGroup (VStr "sm") VUndef VUndef
      [MoreSamples.plain [Field "size" "lg"; Field "name" "A"];
       MoreSamples.plain [Field "name" "B"]] !! 0
    = Some first /\
    ButtonView.props first !! "name" = Some (VStr "A") /\
    ButtonView.props first !! "mr" = Some (VNum 2) /\
    ButtonView.props first !! "size" = Some (VStr "sm").
Proof.
  destruct (button_group_spacing (VStr "sm") VUndef VUndef
              [MoreSamples.plain [Field "size" "lg"; Field "name" "A"];
               MoreSamples.plain [Field "name" "B"]]
              0 (MoreSamples.plain [Field "size" "lg"; Field "name" "A"])
              eq_refl)
    as (_ & first & Hfirst & _ & Hkeep & Hmr & _ & Hsize & _).
  exists first. split; [exact Hfirst|].
  split; [rewrite Hkeep; [reflexivity|not_in_list]|].
  split; [apply Hmr; [reflexivity|discriminate]|].
  apply Hsize; discriminate.
Defined.

(** ** Avatar: what is rendered *)

Lemma getInitials_normal (name : string) :
  exists initials, Avatar.getInitials name = (Normal initials, []).
Proof. rewrite getInitials_eq. destruct (_ && _); eexists; reflexivity. Qed.

Lemma renderAvatarName_named (name : option string) :
  Avatar.truthy_string name = true ->
  exists initials,
    Avatar.getInitials (default "" name) = (Normal initials, []) /\
    AvatarView.renderAvatarName name =
      (Normal (AvatarView.AvatarName name (Some initials)), []).
Proof.
  intros Hn. destruct (getInitials_normal (default "" name)) as [i Hi].
  exists i. split; [exact Hi|].
  unfold AvatarView.renderAvatarName. rewrite Hn, Hi. reflexivity.
Qed.

(** X16. What an Avatar shows is decided by three facts.  With a source
    whose load has not failed it shows the image, with the name as its
    alternative text.  Otherwise, with a name, it shows the initials of
    the name, and rendering them never throws; with no name it shows the
    default figure.  The four tests of [getChildren] leave no other
    case. *)
Theorem avatar_children (props : AvatarView.AvatarProps) (s : AvatarView.State) :
  let src_ok := Avatar.truthy_string (AvatarView.src props) in
  let name_ok := Avatar.truthy_string (AvatarView.name props) in
  (src_ok && AvatarView.hasLoaded s = true ->
   AvatarView.getChildren props s =
     mret (AvatarView.Image (default "" (AvatarView.src props))
                            (AvatarView.name props))) /\
  (src_ok && AvatarView.hasLoaded s = false -> name_ok = true ->
   exists initials,
     Avatar.getInitials (default "" (AvatarView.name props)) =
       (Normal initials, []) /\
     AvatarView.getChildren props s =
       mret (AvatarView.AvatarName (AvatarView.name props) (Some initials))) /\
  (src_ok && AvatarView.hasLoaded s = false -> name_ok = false ->
   AvatarView.getChildren props s =
     mret (AvatarView.DefaultAvatar (AvatarView.name props))).
Proof.
  intros src_ok name_ok. unfold AvatarView.getChildren.
  fold src_ok name_ok.
  split; [|split].
  - intros H. rewrite H. reflexivity.
  - intros H Hn. rewrite H, Hn.
    destruct (renderAvatarName_named _ Hn) as (i & Hi & Hr).
    exists i. split; [exact Hi|]. rewrite Hr.
    destruct src_ok, (AvatarView.hasLoaded s); try discriminate; reflexivity.
  - intros H Hn. rewrite H, Hn.
    destruct src_ok, (AvatarView.hasLoaded s); try discriminate; reflexivity.
Qed.

Lemma avatar_children_witness :
  AvatarView.getChildren
    (MoreSamples.avatar (Some "https://example.org/a.png") (Some "Dan Abramov"))
    (AvatarView.onLoadError
       (MoreSamples.avatar (Some "https://example.org/a.png")
                           (Some "Dan Abramov"))
       AvatarView.mount) =
  mret (AvatarView.AvatarName (Some "Dan Abramov") (Some "DA")).
Proof.
  destruct (proj1 (proj2 (avatar_children
              (MoreSamples.avatar (Some "https://example.org/a.png")
                                  (Some "Dan Abramov"))
              (AvatarView.onLoadError
                 (MoreSamples.avatar (Some "https://example.org/a.png")
                                     (Some "Dan Abramov"))
                 AvatarView.mount))) eq_refl eq_refl)
    as (initials & Hi & Hr).
  rewrite Hr. vm_compute in Hi. injection Hi as <-. reflexivity.
Defined.

(** X17. A load error is final.  It is reported to [onError] once, when
    one was supplied, and from then on the Avatar never renders the image
    again, whatever props it is given, a new source included. *)
Theorem avatar_load_error_is_final (props later : AvatarView.AvatarProps)
    (s : AvatarView.State) :
  let failed := AvatarView.onLoadError props s in
  AvatarView.called failed =
    (AvatarView.called s ++ option_list (AvatarView.onError props))%list /\
  forall src alt out,
    AvatarView.getChildren later failed ≠
    (Normal (AvatarView.Image src alt), out).
Proof.
  split; [reflexivity|].
  intros src alt out.
  destruct (avatar_children later (AvatarView.onLoadError props s))
    as (_ & Hname & Hdefault).
  simpl in Hname, Hdefault. rewrite andb_false_r in Hname, Hdefault.
  destruct (Avatar.truthy_string (AvatarView.name later)) eqn:Hn.
  - destruct (Hname eq_refl eq_refl) as (i & _ & Hr). rewrite Hr.
    discriminate.
  - rewrite (Hdefault eq_refl eq_refl). discriminate.
Qed.

Lemma string_length_append (a b : string) :
  String.length (a +:+ b) = String.length a + String.length b.
Proof. induction a as [|c a IH]; simpl; [reflexivity|]. rewrite IH. reflexivity. Qed.

(** X18. The initials have at most two characters, and there are none
    exactly when the name is empty or begins with a space. *)
Theorem initials_length (name : string) :
  exists initials,
    Avatar.getInitials name = (Normal initials, []) /\
    (String.length initials ≤ 2)%nat /\
    (initials = "" <-> Avatar.first_word name = "").
Proof.
  rewrite getInitials_eq. unfold Avatar.truthy_string.
  assert (Hc : forall w, (String.length (charAt w 0) ≤ 1)%nat /\
                         (charAt w 0 = "" <-> w = "")).
  { intros [|c w]; unfold charAt; simpl; (split; [lia|]);
      split; intros E; try discriminate E; reflexivity. }
  destruct (Hc (Avatar.first_word name)) as [L1 E1].
  destruct (String.eqb_spec (Avatar.first_word name) "") as [Hw|Hw]; simpl.
  - eexists. split; [reflexivity|]. split; [lia|tauto].
  - destruct (Avatar.second_word name) as [w2|]; simpl.
    + destruct (Hc w2) as [L2 _].
      destruct (negb (w2 =? "")); eexists; (split; [reflexivity|]).
      * split.
        -- rewrite string_length_append. lia.
        -- split; [|tauto]. intros E.
           destruct (charAt (Avatar.first_word name) 0) eqn:Ec;
             [tauto|discriminate].
      * split; [lia|tauto].
    + eexists. split; [reflexivity|]. split; [lia|tauto].
Qed.

(** ** Team page *)

(** X19. The contributors shown below the team are the contributors whose
    login is no member's, in the order they came in: no member is shown
    twice, and nobody else is dropped. *)
Theorem contributors_without_team (members contributors : list Team.Account)
    (c : Team.Account) :
  (c ∈ Team.contributorsWithoutTeam members contributors <->
   c ∈ contributors /\ forall m, m ∈ members -> Team.login m ≠ Team.login c) /\
  sublist (Team.contributorsWithoutTeam members contributors) contributors.
Proof.
  unfold Team.contributorsWithoutTeam. split; [|apply sublist_filter].
  rewrite list_elem_of_filter, list_elem_of_fmap. split.
  - intros [Hno Hin]. split; [exact Hin|].
    intros m Hm E. apply Hno. exists m. auto.
  - intros [Hin Hno]. split; [|exact Hin].
    intros (m & E & Hm). apply (Hno m Hm). congruence.
Qed.

Lemma contributors_without_team_witness :
  MoreSamples.account "amy" ∈
    Team.contributorsWithoutTeam
      [MoreSamples.account "segunadebayo"]
      [MoreSamples.account "amy"; MoreSamples.account "segunadebayo"].
Proof.
  apply (proj1 (contributors_without_team
                  [MoreSamples.account "segunadebayo"]
                  [MoreSamples.account "amy"; MoreSamples.account "segunadebayo"]
                  (MoreSamples.account "amy"))).
  split; [in_list|].
  intros m Hm. apply elem_of_cons in Hm. destruct Hm as [-> | Hm].
  - discriminate.
  - apply elem_of_nil in Hm. contradiction.
Defined.

Section TeamFacts.
Variable localeCompare : string -> string -> Z.

Lemma place_perm (x : Team.Account) (l : list Team.Account) :
  Team.place localeCompare x l ≡ₚ x :: l.
Proof.
  induction l as [|y l IH]; simpl; [reflexivity|].
  destruct (0 <? _)%Z; [|reflexivity].
  rewrite IH. apply Permutation_swap.
Qed.

Lemma sort_perm (l : list Team.Account) : Team.sort localeCompare l ≡ₚ l.
Proof.
  induction l as [|x l IH]; simpl; [reflexivity|].
  rewrite place_perm, IH. reflexivity.
Qed.

(** Whether the list starts with the founder. *)
Let led (l : list Team.Account) : Prop :=
  exists first rest, l = first :: rest /\ Team.login first = "segunadebayo".

Lemma place_led (x : Team.Account) (l : list Team.Account) :
  Team.login x = "segunadebayo" \/ led l ->
  led (Team.place localeCompare x l).
Proof.
  intros H. destruct l as [|y l]; simpl.
  - destruct H as [H | (f & r & [=] & _)]. exists x, []. auto.
  - unfold Team.sortMembers.
    destruct (decide (Team.login x = "segunadebayo")) as [Hx|Hx]; simpl.
    + exists x, (y :: l). auto.
    + destruct H as [H | (f & r & [= <- <-] & Hf)]; [contradiction|].
      rewrite decide_True by exact Hf. simpl.
      exists y, (Team.place localeCompare x l). auto.
Qed.

Lemma sort_led (l : list Team.Account) :
  (exists m, m ∈ l /\ Team.login m = "segunadebayo") ->
  led (Team.sort localeCompare l).
Proof.
  induction l as [|x l IH]; intros (m & Hin & Hm).
  - apply elem_of_nil in Hin. contradiction.
  - simpl. apply place_led.
    apply elem_of_cons in Hin. destruct Hin as [-> | Hin]; [left; exact Hm|].
    right. apply IH. exists m. auto.
Qed.

End TeamFacts.

(** X20. Sorting the team keeps everybody, and puts segunadebayo first
    whenever he is among the members, whatever order [localeCompare]
    gives the other logins. *)
Theorem team_sort_founder_first (localeCompare : string -> string -> Z)
    (members : list Team.Account) :
  Team.sort localeCompare members ≡ₚ members /\
  ((exists m, m ∈ members /\ Team.login m = "segunadebayo") ->
   exists first rest,
     Team.sort localeCompare members = first :: rest /\
     Team.login first = "segunadebayo").
Proof.
  split; [apply sort_perm|apply sort_led].
Qed.

Lemma team_sort_founder_first_witness :
  exists first rest,
    Team.sort MoreSamples.compare_logins
      [MoreSamples.account "zed"; MoreSamples.account "segunadebayo";
       MoreSamples.account "amy"] = first :: rest /\
    Team.login first = "segunadebayo".
Proof.
  apply (proj2 (team_sort_founder_first MoreSamples.compare_logins
                  [MoreSamples.account "zed"; MoreSamples.account "segunadebayo";
                   MoreSamples.account "amy"])).
  exists (MoreSamples.account "segunadebayo"). split; [in_list|reflexivity].
Defined.

(** ** Search results *)

Lemma string_append_empty (a : string) : a +:+ "" = a.
Proof.
  induction a as [|c a IH]; [reflexivity|].
  change (String c (a +:+ "") = String c a). f_equal. exact IH.
Qed.

(** X21. The results list drops a hit exactly when its section title and
    its content both begin with [css-], and keeps the others in order:
    it works hit by hit, so that the result for a list is the results for
    its parts, one after the other.  A hit without content is therefore
    never dropped; it leaves with the top level of its hierarchy as
    content.  A hit that points at [#content-wrapper] leaves with the bare
    path as its URL. *)
Theorem search_transformItems (pathname hash : string -> string)
    (items : list Search.Item) :
  (forall item,
     Search.transformItems pathname hash [item] =
     if Search.startsWithCss (Search.lvl1 item) &&
          Search.startsWithCss (Search.content item)
     then [] else [Search.relative pathname hash item]) /\
  (forall more,
     Search.transformItems pathname hash (items ++ more)%list =
     (Search.transformItems pathname hash items ++
      Search.transformItems pathname hash more)%list) /\
  (forall out,
     out ∈ Search.transformItems pathname hash items <->
     exists item,
       item ∈ items /\
       Search.startsWithCss (Search.lvl1 item) &&
         Search.startsWithCss (Search.content item) = false /\
       out = Search.relative pathname hash item) /\
  (forall item,
     item ∈ items -> Search.content item = None ->
     Search.relative pathname hash item ∈
       Search.transformItems pathname hash items /\
     Search.content (Search.relative pathname hash item) = Search.lvl0 item) /\
  (forall item,
     hash (Search.url item) = "#content-wrapper" ->
     Search.url (Search.relative pathname hash item) =
       pathname (Search.url item)) /\
  (length (Search.transformItems pathname hash items) ≤ length items)%nat.
Proof.
  assert (Hkeep : forall item,
            Search.keep item = true <->
            Search.startsWithCss (Search.lvl1 item) &&
              Search.startsWithCss (Search.content item) = false).
  { intros item. unfold Search.keep.
    destruct (Search.startsWithCss (Search.lvl1 item)),
      (Search.startsWithCss (Search.content item)); simpl; split; congruence. }
  assert (Hmem : forall out,
     out ∈ Search.transformItems pathname hash items <->
     exists item,
       item ∈ items /\
       Search.startsWithCss (Search.lvl1 item) &&
         Search.startsWithCss (Search.content item) = false /\
       out = Search.relative pathname hash item).
  { intros out. unfold Search.transformItems.
    rewrite list_elem_of_fmap. split.
    - intros (item & -> & [Hk Hin]%list_elem_of_filter).
      exists item. rewrite <- Hkeep. auto.
    - intros (item & Hin & Hk & ->). exists item. split; [reflexivity|].
      apply list_elem_of_filter. rewrite Hkeep. auto. }
  split; [|split; [|split; [exact Hmem|split; [|split]]]].
  - intros item. unfold Search.transformItems.
    destruct (Search.startsWithCss (Search.lvl1 item) &&
              Search.startsWithCss (Search.content item)) eqn:E.
    + rewrite filter_cons_False; [reflexivity|].
      rewrite Hkeep, E. discriminate.
    + rewrite filter_cons_True; [reflexivity|].
      rewrite Hkeep. exact E.
  - intros more. unfold Search.transformItems.
    rewrite filter_app, fmap_app. reflexivity.
  - intros item Hin Hnull. split.
    + apply Hmem. exists item. split; [exact Hin|]. split; [|reflexivity].
      rewrite Hnull. simpl. apply andb_false_r.
    + unfold Search.relative. simpl. rewrite Hnull. reflexivity.
  - intros item Hh. unfold Search.relative. simpl.
    rewrite decide_True by exact Hh. apply string_append_empty.
  - unfold Search.transformItems. rewrite length_fmap. apply length_filter.
Qed.

Lemma search_transformItems_witness :
  Search.relative (fun _ => "/docs/button") (fun _ => "#content-wrapper")
    (MoreSamples.hit "https://chakra-ui.com/docs/button#content-wrapper"
                     None (Some "css-reset")) ∈
  Search.transformItems (fun _ => "/docs/button") (fun _ => "#content-wrapper")
    [MoreSamples.hit "https://chakra-ui.com/docs/button#content-wrapper"
                     None (Some "css-reset")].
Proof.
  apply (proj1 (proj2 (proj2 (proj2 (search_transformItems
                  (fun _ => "/docs/button") (fun _ => "#content-wrapper")
                  [MoreSamples.hit
                     "https://chakra-ui.com/docs/button#content-wrapper"
                     None (Some "css-reset")]))))).
  - in_list.
  - reflexivity.
Defined.

(** ** Tooltip element props *)

(** X22. The props of the tooltip element always carry the tooltip's own
    [id], the role [tooltip] and a relative position: no prop of the
    caller, and no leftover prop of the hook, replaces them.  Every other
    prop of the caller reaches the element, before the leftover props of
    the hook. *)
Theorem tooltip_props_fixed (transformOrigin : JSVal) (htmlProps : Obj)
    (tooltipId : string) (props : Obj) (_ref : JSVal) :
  let result :=
    TooltipView.getTooltipProps transformOrigin htmlProps tooltipId props _ref in
  result !! "id" = Some (VStr tooltipId) /\
  result !! "role" = Some (VStr "tooltip") /\
  prop (prop (VObj result) "style") "position" = VStr "relative" /\
  prop (prop (VObj result) "style") "transformOrigin" = transformOrigin /\
  (forall k, k ∉ ["id"; "role"; "style"; "ref"] ->
     result !! k = first_of [props !! k; htmlProps !! k]).
Proof.
  intros result. unfold result, TooltipView.getTooltipProps, object.
  cbn [foldl].
  repeat split.
  - rewrite lookup_insert_ne, lookup_insert_ne, lookup_insert_eq by discriminate.
    reflexivity.
  - rewrite lookup_insert_ne, lookup_insert_eq by discriminate. reflexivity.
  - rewrite prop_obj, lookup_insert_eq. simpl.
    rewrite lookup_insert_ne, lookup_insert_eq by discriminate. reflexivity.
  - rewrite prop_obj, lookup_insert_eq. simpl.
    rewrite lookup_insert_eq. reflexivity.
  - intros k Hk.
    assert (Hne : k ≠ "id" /\ k ≠ "role" /\ k ≠ "style" /\ k ≠ "ref").
    { repeat split; intros ->; apply Hk; in_list. }
    destruct Hne as (H1 & H2 & H3 & H4).
    rewrite !lookup_insert_ne by congruence.
    rewrite !lookup_spread. cbn [own].
    rewrite lookup_insert_ne, lookup_empty by congruence.
    destruct (props !! k), (htmlProps !! k); reflexivity.
Qed.
